(** * Refinanced-debt interest cost calculator (app.py)

    A shallow embedding of the Streamlit script [app.py]: the two FRED rate
    resolvers [get_fred_rate] and [get_current_fred_rate], the
    [st.cache_data] memoisation wrapped around them, the input widgets and
    the interest cost arithmetic, followed by the properties of the
    specification that concern them.

    Python floats are kept behind a small interface [PyNumber], with two
    instances: [binary64] (IEEE doubles, what the interpreter computes with)
    and [exact] (rationals, the decimal arithmetic the specification speaks
    in).  Every function of the script is written once, over the
    interface. *)

From Stdlib Require Import ZArith QArith Qabs Qround Lia Lqa Sorted.
From Stdlib Require Import PrimFloat FloatOps SpecFloat FloatAxioms.
From Stdlib Require Import Ascii String DecimalString.
From stdpp Require Import base option list strings gmap.

Set Default Proof Using "Type".
Local Open Scope Z_scope.

(* ================================================================== *)
(** * Numbers *)
(* ================================================================== *)

(** What a format specification such as [:.2f] reads off a number: it is
    not a number, infinite, or a sign and an exact magnitude. *)
Inductive decimal_view :=
  | ViewNaN
  | ViewInf (negative : bool)
  | ViewFinite (negative : bool) (magnitude : Q).

(** The operations the script applies to its floats: literals, [*], [/],
    [-], the comparison [<], the missing-value test of pandas, and
    conversion to decimal text. *)
Class PyNumber (F : Type) := {
  num_of_Z : Z → F;
  num_mul  : F → F → F;
  num_div  : F → F → F;
  num_sub  : F → F → F;
  num_ltb  : F → F → bool;
  num_isna : F → bool;
  num_view : F → decimal_view
}.

Declare Scope py_scope.
Delimit Scope py_scope with py.
Infix "*" := num_mul : py_scope.
Infix "/" := num_div : py_scope.
Infix "-" := num_sub : py_scope.
Infix "<?" := num_ltb : py_scope.

(** IEEE 754 binary64: Python's [float] and numpy's [float64]. An integer
    literal is converted bit by bit; below 2^53 no step rounds. *)
Fixpoint float_of_pos (p : positive) : float :=
  match p with
  | xH => PrimFloat.one
  | xO q => PrimFloat.mul PrimFloat.two (float_of_pos q)
  | xI q => PrimFloat.add (PrimFloat.mul PrimFloat.two (float_of_pos q)) PrimFloat.one
  end.

Definition float_of_Z (z : Z) : float :=
  match z with
  | Z0 => PrimFloat.zero
  | Zpos p => float_of_pos p
  | Zneg p => PrimFloat.opp (float_of_pos p)
  end.

(** The exact value of a double, from its sign, mantissa and exponent. *)
Definition float_view (x : float) : decimal_view :=
  match Prim2SF x with
  | S754_nan => ViewNaN
  | S754_infinity s => ViewInf s
  | S754_zero s => ViewFinite s 0
  | S754_finite s m e => ViewFinite s (inject_Z (Zpos m) * Qpower 2 e)
  end.

#[export] Instance binary64 : PyNumber float := {|
  num_of_Z := float_of_Z;
  num_mul  := PrimFloat.mul;
  num_div  := PrimFloat.div;
  num_sub  := PrimFloat.sub;
  num_ltb  := PrimFloat.ltb;
  num_isna := PrimFloat.is_nan;
  num_view := float_view
|}.

(** Exact rational arithmetic; it has no missing value. *)
#[export] Instance exact : PyNumber Q := {|
  num_of_Z := inject_Z;
  num_mul  := Qmult;
  num_div  := Qdiv;
  num_sub  := Qminus;
  num_ltb  := fun x y => negb (Qle_bool y x);
  num_isna := fun _ => false;
  num_view := fun x => ViewFinite (negb (Qle_bool 0 x)) (Qabs x)
|}.

(* ================================================================== *)
(** * Format specifications [:.2f] and [:,.2f] *)
(* ================================================================== *)

(** Nearest integer to a non-negative rational, ties to even: the rounding
    of Python's float formatting, which works on the exact binary value. *)
Definition round_half_even (q : Q) : Z :=
  let f := Qfloor q in
  match (q - inject_Z f ?= 1 # 2)%Q with
  | Lt => f
  | Gt => f + 1
  | Eq => if Z.even f then f else f + 1
  end.

Definition digits_of_Z (z : Z) : string :=
  NilZero.string_of_uint (N.to_uint (Z.to_N z)).

(** Thousands separators: walk the digits from the right, a comma before
    every complete group of three. *)
Fixpoint group3 (rev_digits : list ascii) (k : nat) (acc : list ascii) : list ascii :=
  match rev_digits with
  | [] => acc
  | c :: rest =>
      match k with
      | 3%nat => group3 rest 1 (c :: "," %char :: acc)
      | _ => group3 rest (S k) (c :: acc)
      end
  end.

Definition with_commas (digits : string) : string :=
  string_of_list_ascii (group3 (rev (list_ascii_of_string digits)) 0 []).

(** Digits padded with zeros on the left up to a width. *)
Fixpoint zero_pad (width : nat) (digits : string) : string :=
  match width - String.length digits with
  | O => digits
  | S _ =>
      match width with
      | O => digits
      | S w => "0" +:+ zero_pad w digits
      end
  end%nat.

Section Format.
Context {F : Type} `{PyNumber F}.

(** [f"{x:.<precision>f}"] when [grouping] is false,
    [f"{x:,.<precision>f}"] when it is true. *)
Definition format_f (grouping : bool) (precision : nat) (x : F) : string :=
  let sign (negative : bool) := if negative then "-" else "" in
  match num_view x with
  | ViewNaN => "nan"
  | ViewInf s => sign s +:+ "inf"
  | ViewFinite s m =>
      let unit := 10 ^ Z.of_nat precision in
      let scaled := round_half_even (m * inject_Z unit) in
      let whole := digits_of_Z (scaled / unit) in
      let fraction :=
        match precision with
        | O => ""
        | S _ => "." +:+ zero_pad precision (digits_of_Z (scaled mod unit))
        end in
      sign s +:+ (if grouping then with_commas whole else whole) +:+ fraction
  end.
End Format.

(* ================================================================== *)
(** * Dates *)
(* ================================================================== *)

(** A [pd.Timestamp] at midnight is its day number (days since
    1970-01-01); [timedelta(days=n)] is [n]. *)
Abbreviation Timestamp := Z (only parsing).

Definition timedelta (days : Z) : Z := days.

(** Day number of a calendar date of the proleptic Gregorian calendar. *)
Definition ordinal (year month day : Z) : Timestamp :=
  let y := if month <=? 2 then year - 1 else year in
  let era := y / 400 in
  let yoe := y - era * 400 in
  let doy := (153 * (if month <=? 2 then month + 9 else month - 3) + 2) / 5 + day - 1 in
  let doe := yoe * 365 + yoe / 4 - yoe / 100 + doy in
  era * 146097 + doe - 719468.

(** [pd.to_datetime] on the [YYYY-MM-DD] strings the script gives it. *)
Definition number_at (s : string) (start len : nat) : option Z :=
  (λ u, Z.of_N (N.of_uint u)) <$> NilZero.uint_of_string (substring start len s).

Definition to_datetime (s : string) : option Timestamp :=
  y ← number_at s 0 4; m ← number_at s 5 2; d ← number_at s 8 2;
  if bool_decide (String.length s = 10%nat ∧ String.get 4 s = Some "-"%char
                  ∧ String.get 7 s = Some "-"%char)
  then Some (ordinal y m d) else None.

(** [d.strftime('%Y-%m-%d')]: the calendar date of a day number. *)
Definition civil (d : Timestamp) : Z * Z * Z :=
  let z := d + 719468 in
  let era := z / 146097 in
  let doe := z - era * 146097 in
  let yoe := (doe - doe / 1460 + doe / 36524 - doe / 146096) / 365 in
  let doy := doe - (365 * yoe + yoe / 4 - yoe / 100) in
  let mp := (5 * doy + 2) / 153 in
  let day := doy - (153 * mp + 2) / 5 + 1 in
  let month := if mp <? 10 then mp + 3 else mp - 9 in
  let year := yoe + era * 400 + (if month <=? 2 then 1 else 0) in
  (year, month, day).

Definition strftime_ymd (d : Timestamp) : string :=
  let '(year, month, day) := civil d in
  zero_pad 4 (digits_of_Z year) +:+ "-" +:+ zero_pad 2 (digits_of_Z month)
    +:+ "-" +:+ zero_pad 2 (digits_of_Z day).

Definition HISTORICAL_DATE_STR : string := "2025-04-01".
Definition HISTORICAL_DATE : Timestamp := ordinal 2025 4 1.

(* ================================================================== *)
(** * Configuration: the series catalogue (app.py, lines 31-37) *)
(* ================================================================== *)

(** A [dict] literal, kept as an association list: the select box shows
    the keys in insertion order and its default is a position. *)
Definition FRED_SERIES : list (string * string) :=
  [ ("3-Month Treasury Bill", "DGS3MO");
    ("1-Year Treasury", "DGS1");
    ("5-Year Treasury", "DGS5");
    ("10-Year Treasury", "DGS10");
    ("30-Year Treasury", "DGS30") ].

Definition keys {A B} (d : list (A * B)) : list A := d.*1.
Definition values {A B} (d : list (A * B)) : list B := d.*2.

(** [d[k]]; [None] stands for [KeyError]. *)
Fixpoint getitem {B} (d : list (string * B)) (k : string) : option B :=
  match d with
  | [] => None
  | (k', v) :: rest => if bool_decide (k' = k) then Some v else getitem rest k
  end.

(* ================================================================== *)
(** * The remote data source and the effects of a run *)
(* ================================================================== *)

(** A [pd.Series] as [fredapi] builds it: index labels with their values,
    in the order the service delivered them. A missing observation is a
    NaN value. *)
Abbreviation Series F := (list (Timestamp * F)) (only parsing).

(** A call either raises (the exception is kept as its text, [str(e)]) or
    returns. *)
Inductive outcome (A : Type) :=
  | Raise (e : string)
  | Return (a : A).
Arguments Raise {A} e.
Arguments Return {A} a.

(** The [Fred] client: the script uses it through [get_series] alone, with
    or without the two range arguments. *)
Record Fred (F : Type) := {
  get_series : string → option Timestamp → option Timestamp → outcome (Series F)
}.
Arguments get_series {F} _ _ _ _.

(** What a run does besides computing: calls to the remote source, and
    the elements it puts on the page. *)
Inductive event :=
  | RemoteCall (series_id : string) (observation_start observation_end : option Timestamp)
  | StError (body : string)
  | StWarning (body : string)
  | StInfo (body : string)
  | StWrite (body : string)
  | StMetric (label value : string) (delta : option string) (delta_color : string).

Definition is_remote_call (e : event) : bool :=
  match e with RemoteCall _ _ _ => true | _ => false end.

(** Computations that log events as they go. *)
Definition Eff (A : Type) : Type := A * list event.

Definition eff_ret {A} (a : A) : Eff A := (a, []).
Definition eff_bind {A B} (m : Eff A) (k : A → Eff B) : Eff B :=
  let '(a, log1) := m in let '(b, log2) := k a in (b, log1 ++ log2).
Definition tell (e : event) : Eff unit := (tt, [e]).

Notation "m ;;ₑ k" := (eff_bind m (λ _, k))
  (at level 100, right associativity).

(** Python indexing of a sequence: a negative index counts from the end,
    and [None] stands for [IndexError]. *)
Definition py_index {A} (l : list A) (i : Z) : option A :=
  let n := Z.of_nat (length l) in
  let j := if i <? 0 then n + i else i in
  if (0 <=? j) && (j <? n) then l !! Z.to_nat j else None.

(* ================================================================== *)
(** * Helper functions (app.py, lines 41-74) *)
(* ================================================================== *)

(** What both helpers return: a rate with its date, or [None, None]. *)
Abbreviation rate_result F := (option F * option Timestamp)%type (only parsing).

Section Resolvers.
Context {F : Type} `{PyNumber F}.

Definition dropna (data : Series F) : Series F :=
  filter (λ o, num_isna o.2 = false) data.

Definition empty (data : Series F) : bool :=
  match data with [] => true | _ => false end.

Definition iloc (data : Series F) (i : Z) : option F := snd <$> py_index data i.
Definition index (data : Series F) (i : Z) : option Timestamp := fst <$> py_index data i.

(** The statements after the remote call inside [try:]; an indexing error
    would be raised to the same handler as a remote failure. *)
Definition last_available (data : Series F) : outcome (rate_result F) :=
  let data := dropna data in
  if negb (empty data) then
    match iloc data (-1), index data (-1) with
    | Some v, Some d => Return (Some v, Some d)
    | _, _ => Raise "single positional indexer is out-of-bounds"
    end
  else Return (None, None).

Definition get_fred_rate (_fred_client : Fred F) (series_id : string) (date : Timestamp)
  : Eff (rate_result F) :=
  let start_date := date - timedelta 7 in
  let end_date := date in
  tell (RemoteCall series_id (Some start_date) (Some end_date)) ;;ₑ
  match
    match get_series _fred_client series_id (Some start_date) (Some end_date) with
    | Raise e => Raise e
    | Return data => last_available data
    end
  with
  | Return r => eff_ret r
  | Raise e =>
      tell (StError ("Error fetching historical FRED data for " +:+ series_id
                     +:+ ": " +:+ e)) ;;ₑ
      eff_ret (None, None)
  end.

Definition get_current_fred_rate (_fred_client : Fred F) (series_id : string)
  : Eff (rate_result F) :=
  tell (RemoteCall series_id None None) ;;ₑ
  match
    match get_series _fred_client series_id None None with
    | Raise e => Raise e
    | Return data => last_available data
    end
  with
  | Return r => eff_ret r
  | Raise e =>
      tell (StError ("Error fetching current FRED data for " +:+ series_id
                     +:+ ": " +:+ e)) ;;ₑ
      eff_ret (None, None)
  end.
End Resolvers.

(* ================================================================== *)
(** * [st.cache_data] *)
(* ================================================================== *)

(** A stored call: the value it returned, the page elements it produced
    (replayed on a hit) and the time it was stored. *)
Record cache_entry (R : Type) := mkEntry {
  cached_value : R;
  cached_elements : list event;
  stored_at : Z
}.
Arguments mkEntry {R} _ _ _.
Arguments cached_value {R} _.
Arguments cached_elements {R} _.
Arguments stored_at {R} _.

Section CacheData.
Context {U K R : Type} `{Countable K}.

(** [@st.cache_data(ttl=...)] around [f]. The key is made of the
    arguments whose name does not start with an underscore ([key]); the
    others ([unhashed]) are passed through. An entry younger than [ttl]
    seconds answers the call without running [f]. *)
Definition cache_data (ttl : Z) (f : U → K → Eff R)
    (now : Z) (unhashed : U) (key : K) (cache : gmap K (cache_entry R))
  : Eff R * gmap K (cache_entry R) :=
  let miss :=
    let '(r, log) := f unhashed key in
    let elements := filter (λ e, is_remote_call e = false) log in
    ((r, log), <[key := mkEntry r elements now]> cache) in
  match cache !! key with
  | Some entry =>
      if now <? stored_at entry + ttl
      then ((cached_value entry, cached_elements entry), cache)
      else miss
  | None => miss
  end.
End CacheData.

Section Cached.
Context {F : Type} `{PyNumber F}.

(** [@st.cache_data(ttl=3600)] on [get_fred_rate]: [_fred_client] is not
    part of the key. *)
Definition cached_get_fred_rate (now : Z) (_fred_client : Fred F)
    (series_id : string) (date : Timestamp) :=
  cache_data 3600 (λ c k, get_fred_rate c k.1 k.2) now _fred_client (series_id, date).

(** [@st.cache_data(ttl=900)] on [get_current_fred_rate]. *)
Definition cached_get_current_fred_rate (now : Z) (_fred_client : Fred F)
    (series_id : string) :=
  cache_data 900 get_current_fred_rate now _fred_client series_id.
End Cached.

(* ================================================================== *)
(** * Interest cost calculation (app.py, lines 162-167 and 183) *)
(* ================================================================== *)

Record CostResult (F : Type) := mkCostResult {
  historical_interest_cost : F;
  current_interest_cost : F;
  additional_cost : F
}.
Arguments mkCostResult {F} _ _ _.
Arguments historical_interest_cost {F} _.
Arguments current_interest_cost {F} _.
Arguments additional_cost {F} _.

Section Calculator.
Context {F : Type} `{PyNumber F}.
Local Open Scope py_scope.

(** The three assignments under [if historical_rate is not None and
    current_rate is not None:]. *)
Definition compute_cost (historical_rate current_rate debt_amount : F)
  : CostResult F :=
  let historical_interest_cost := debt_amount * (historical_rate / num_of_Z 100) in
  let current_interest_cost := debt_amount * (current_rate / num_of_Z 100) in
  let additional_cost := current_interest_cost - historical_interest_cost in
  mkCostResult historical_interest_cost current_interest_cost additional_cost.

(** [delta_color = "inverse" if additional_cost < 0 else "normal"] *)
Definition delta_color (additional_cost : F) : string :=
  if additional_cost <? num_of_Z 0 then "inverse" else "normal".
End Calculator.

(* ================================================================== *)
(** * The page: widgets and the script body (app.py, lines 104-196) *)
(* ================================================================== *)

(** What survives from one run of the script to the next: the state of the
    two input widgets and the two function caches. *)
Record AppState (F : Type) := mkState {
  maturity_index : nat;
  debt_amount_billions : F;
  historical_cache : gmap (string * Timestamp) (cache_entry (option F * option Timestamp));
  current_cache : gmap string (cache_entry (option F * option Timestamp))
}.
Arguments mkState {F} _ _ _ _.
Arguments maturity_index {F} _.
Arguments debt_amount_billions {F} _.
Arguments historical_cache {F} _.
Arguments current_cache {F} _.

(** [options=list(FRED_SERIES.keys())]: what the select box lists. *)
Definition selectbox_options : list string := keys FRED_SERIES.

(** What the user can do: load the page (again), or use one of the two
    widgets of the side bar. The select box hands back one of the options
    it lists, so a choice is a position of that list; the number input
    takes any number typed into it. *)
Inductive action (F : Type) :=
  | Load
  | SelectMaturity (position : fin (length selectbox_options))
  | EnterAmount (billions : F).
Arguments Load {F}.
Arguments SelectMaturity {F} position.
Arguments EnterAmount {F} billions.

Section Page.
Context {F : Type} `{PyNumber F}.
Local Open Scope py_scope.

(** [st.sidebar.selectbox(..., options=list(FRED_SERIES.keys()), index=3)]
    and [st.sidebar.number_input(..., min_value=1.0, value=100.0, ...)]
    before the user touches them. *)
Definition selectbox_index : nat := 3.
Definition number_input_min_value : F := num_of_Z 1.
Definition number_input_value : F := num_of_Z 100.

Definition initial_state : AppState F :=
  mkState selectbox_index number_input_value ∅ ∅.

(** The widget values the script runs on after an action. Loading the page
    puts the widgets on their defaults; the caches belong to the server and
    stay. Neither widget turns an entry down: the select box is on the
    option chosen, and the number input hands the amount entered to the
    script unless it is below [min_value], in which case it is back on its
    default [value]. *)
Definition accept (a : action F) (s : AppState F) : AppState F :=
  match a with
  | Load =>
      mkState selectbox_index number_input_value (historical_cache s) (current_cache s)
  | SelectMaturity position =>
      mkState (fin_to_nat position) (debt_amount_billions s)
              (historical_cache s) (current_cache s)
  | EnterAmount x =>
      let value := if x <? number_input_min_value then number_input_value else x in
      mkState (maturity_index s) value (historical_cache s) (current_cache s)
  end.

Definition metric_plain (label value : string) : event :=
  StMetric label value None "normal".

(** One run of the script body on the current widget values, at time
    [now]. An exception that nothing catches ends the run. *)
Definition script (fred : Fred F) (now : Z) (s : AppState F)
  : outcome (option (CostResult F)) * AppState F * list event :=
  match selectbox_options !! maturity_index s with
  | None => (Raise "IndexError", s, [])
  | Some selected_maturity_name =>
  match getitem FRED_SERIES selected_maturity_name with
  | None => (Raise "KeyError", s, [])
  | Some selected_series_id =>
  let debt_amount := debt_amount_billions s * num_of_Z 1000000000 in
  (* Fetch Historical Rate *)
  let '((historical_rate, historical_rate_date), log1, hcache) :=
    cached_get_fred_rate now fred selected_series_id HISTORICAL_DATE (historical_cache s) in
  let s1 := mkState (maturity_index s) (debt_amount_billions s) hcache (current_cache s) in
  match
    match historical_rate with
    | Some rate =>
        match historical_rate_date with
        | Some d =>
            Return [metric_plain (selected_maturity_name +:+ " Yield (as of "
                                    +:+ strftime_ymd d +:+ ")")
                                 (format_f false 2 rate +:+ "%")]
        | None => Raise "AttributeError"
        end
    | None =>
        Return [StError ("Could not retrieve rate for " +:+ HISTORICAL_DATE_STR +:+ ".")]
    end
  with
  | Raise e => (Raise e, s1, log1)
  | Return col1 =>
  (* Fetch Current Rate *)
  let '((current_rate, current_rate_date), log2, ccache) :=
    cached_get_current_fred_rate now fred selected_series_id (current_cache s) in
  let s2 := mkState (maturity_index s) (debt_amount_billions s) hcache ccache in
  match
    match current_rate with
    | Some rate =>
        match current_rate_date with
        | Some d =>
            Return [metric_plain (selected_maturity_name +:+ " Yield (as of "
                                    +:+ strftime_ymd d +:+ ")")
                                 (format_f false 2 rate +:+ "%")]
        | None => Raise "AttributeError"
        end
    | None => Return [StError "Could not retrieve the current rate."]
    end
  with
  | Raise e => (Raise e, s2, log1 ++ col1 ++ log2)
  | Return col2 =>
  (* Calculate Difference *)
  let col3 :=
    match historical_rate, current_rate with
    | Some h, Some c =>
        let rate_difference := c - h in
        [StMetric "Change in Yield" (format_f false 2 rate_difference +:+ "%")
                  (Some (format_f false 2 rate_difference +:+ "% pts")) "normal"]
    | _, _ => [StInfo "Cannot calculate difference without both rates."]
    end in
  (* Interest Cost Calculation *)
  let '(result, costs) :=
    match historical_rate, current_rate with
    | Some h, Some c =>
        let r := compute_cost h c debt_amount in
        (Some r,
         [StWrite ("For refinancing **$" +:+ format_f true 1 (debt_amount_billions s)
                   +:+ " billion** of debt:");
          metric_plain ("Est. Annual Interest Cost at " +:+ format_f false 2 h +:+ "%")
                       ("$" +:+ format_f true 2 (historical_interest_cost r));
          metric_plain ("Est. Annual Interest Cost at " +:+ format_f false 2 c +:+ "%")
                       ("$" +:+ format_f true 2 (current_interest_cost r));
          StMetric "Additional Annual Interest Cost"
                   ("$" +:+ format_f true 2 (additional_cost r))
                   (Some ("$" +:+ format_f true 2 (additional_cost r)))
                   (delta_color (additional_cost r))])
    | _, _ =>
        (None,
         [StWarning "Interest cost cannot be calculated because one or both rates are missing."])
    end in
  (Return result, s2, log1 ++ col1 ++ log2 ++ col2 ++ col3 ++ costs)
  end end end end.

(** A user action: every one of them is followed by a run of the script
    from top to bottom, on the widget values it leaves. *)
Definition step (fred : Fred F) (now : Z) (a : action F) (s : AppState F)
  : AppState F * list event :=
  let '(_, s', log) := script fred now (accept a s) in (s', log).

(** A session: actions at given times, the remote source seen at each
    time being [fred now]. *)
Fixpoint session (fred : Z → Fred F) (todo : list (Z * action F)) (s : AppState F)
  : AppState F * list event :=
  match todo with
  | [] => (s, [])
  | (now, a) :: rest =>
      let '(s', log) := step (fred now) now a s in
      let '(s'', log') := session fred rest s' in
      (s'', log ++ log')
  end.
End Page.

(** An in-memory remote source: per series, the observations it holds in
    the order it lists them; a range request gets those within the range, an
    unknown series is an error. *)
Definition in_range (observation_start observation_end : option Timestamp) (d : Timestamp) : bool :=
  match observation_start with Some a => a <=? d | None => true end
  && match observation_end with Some b => d <=? b | None => true end.

Definition table_client {F} (table : list (string * Series F)) : Fred F :=
  {| get_series := λ series_id a b,
       match getitem table series_id with
       | Some data => Return (filter (λ o, in_range a b o.1 = true) data)
       | None => Raise ("Bad Request.  The series does not exist.")
       end |}.

(** The float a published two-decimal percentage parses to ([4.20] is
    [percent 420]): the quotient is rounded once, to the nearest number. *)
Definition percent {F} `{PyNumber F} (hundredths : Z) : F :=
  num_div (num_of_Z hundredths) (num_of_Z 100).

(* ================================================================== *)
(** * Vocabulary of the properties *)
(* ================================================================== *)

Section ResolverVocabulary.
Context {F : Type} `{PyNumber F}.
Implicit Types (fred : Fred F) (data : Series F) (r : option F * option Timestamp).

(** The last observation that is not missing, as a pair. *)
Definition resolved data : option F * option Timestamp :=
  (snd <$> last (dropna data), fst <$> last (dropna data)).

(** A rate and its date are there together or not at all. *)
Definition coherent r : Prop :=
  (∃ v d, r = (Some v, Some d)) ∨ r = (None, None).

(** Observations listed in date order. *)
Definition chronological data : Prop := StronglySorted Z.le data.*1.

(** A remote source that answers a range request with observations of
    that range only. *)
Definition honours_range fred : Prop :=
  ∀ series_id a b data, get_series fred series_id a b = Return data →
    ∀ o, o ∈ data → in_range a b o.1 = true.

(** A result that is a non-missing observation of the data, with its own
    date, no non-missing observation being dated later. *)
Definition latest_available data r : Prop :=
  ∃ v d, r = (Some v, Some d) ∧ (d, v) ∈ data ∧ num_isna v = false
         ∧ ∀ o, o ∈ data → num_isna o.2 = false → o.1 ≤ d.
End ResolverVocabulary.

Section CacheVocabulary.
Context {U K R : Type} `{Countable K}.
Variables (ttl : Z) (f : U → K → Eff R) (u : U).
Implicit Types (cache : gmap K (cache_entry R)).

(** The cache after a run of earlier calls [(now, key)], all made with the
    same unhashed argument. *)
Fixpoint cache_after (earlier : list (Z * K)) cache : gmap K (cache_entry R) :=
  match earlier with
  | [] => cache
  | (now, key) :: rest => cache_after rest (cache_data ttl f now u key cache).2
  end.

(** Every stored value is the one [f] returns for its key. *)
Definition cache_agrees cache : Prop :=
  ∀ key entry, cache !! key = Some entry → cached_value entry = (f u key).1.
End CacheVocabulary.

(** The page elements stored with an entry hold no remote call. *)
Definition cache_clean {K R : Type} `{Countable K} (cache : gmap K (cache_entry R)) : Prop :=
  ∀ key entry, cache !! key = Some entry →
    Forall (λ e, is_remote_call e = false) (cached_elements entry).

Definition caches_clean {F : Type} (s : AppState F) : Prop :=
  cache_clean (historical_cache s) ∧ cache_clean (current_cache s).

(** Every stored pair is coherent. *)
Definition cache_coherent {F K : Type} `{Countable K}
    (cache : gmap K (cache_entry (option F * option Timestamp))) : Prop :=
  ∀ key entry, cache !! key = Some entry → coherent (cached_value entry).

(** What holds of the page between two runs: the select box is on one of
    its options and the caches hold coherent pairs. *)
Definition page_invariant {F : Type} (s : AppState F) : Prop :=
  (maturity_index s < length (keys FRED_SERIES))%nat
  ∧ cache_coherent (historical_cache s)
  ∧ cache_coherent (current_cache s).


(** A remote call is for a series of the catalogue. *)
Definition from_catalogue (e : event) : Prop :=
  match e with
  | RemoteCall series_id _ _ => series_id ∈ values FRED_SERIES
  | _ => True
  end.

(** The sign rule on doubles, for rates given in hundredths of a percent:
    the additional cost is above, below or at zero as the current rate is
    above, below or at the historical one. *)
Definition sign_agrees (principal : float) (historical current : Z) : bool :=
  let a := additional_cost (compute_cost (percent historical) (percent current) principal) in
  match historical ?= current with
  | Lt => PrimFloat.ltb PrimFloat.zero a
  | Gt => PrimFloat.ltb a PrimFloat.zero
  | Eq => PrimFloat.eqb a PrimFloat.zero
  end.

(** The same rule checked along a table of costs listed by increasing
    rate: each cost against itself and against every later one. *)
Definition cost_gap_ok (low high : float) : bool :=
  PrimFloat.ltb PrimFloat.zero (PrimFloat.sub high low)
  && PrimFloat.ltb (PrimFloat.sub low high) PrimFloat.zero.

Fixpoint later_costs_higher (costs : list float) : bool :=
  match costs with
  | [] => true
  | low :: rest =>
      PrimFloat.eqb (PrimFloat.sub low low) PrimFloat.zero
      && forallb (cost_gap_ok low) rest
      && later_costs_higher rest
  end.

Definition cost_at (principal : float) (hundredths : Z) : float :=
  current_interest_cost (compute_cost (percent hundredths) (percent hundredths) principal).

Definition cost_table (principal : float) (top : nat) : list float :=
  (λ n, cost_at principal (Z.of_nat n)) <$> seq 0 (S top).

(** The principal of the scenario: 100 in the number input, in billions. *)
Definition scenario_principal {F} `{PyNumber F} : F :=
  num_mul number_input_value (num_of_Z 1000000000).

(** The remote calls of a log, in order. *)
Definition remote_calls (log : list event) : list event :=
  filter (λ e, is_remote_call e = true) log.

(** One observation per date, listed by increasing date. *)
Definition one_per_date {F : Type} (data : Series F) : Prop :=
  StronglySorted Z.lt data.*1.

(** The cache after earlier calls [(now, unhashed, key)], each with an
    unhashed argument of its own. *)
Fixpoint cache_after_calls {U K R : Type} `{Countable K} (ttl : Z) (f : U → K → Eff R)
    (calls : list (Z * U * K)) (cache : gmap K (cache_entry R)) : gmap K (cache_entry R) :=
  match calls with
  | [] => cache
  | (now, u, key) :: rest =>
      cache_after_calls ttl f rest (cache_data ttl f now u key cache).2
  end.

(** The entry was stored by one of the calls, for its own key and at the
    time it carries. *)
Definition stored_by {U K R : Type} (f : U → K → Eff R) (calls : list (Z * U * K))
    (key : K) (entry : cache_entry R) : Prop :=
  ∃ u, (stored_at entry, u, key) ∈ calls ∧ cached_value entry = (f u key).1.

(** Every entry of a cache has a property that may depend on its key. *)
Definition entries_satisfy {K R : Type} `{Countable K}
    (P : K → cache_entry R → Prop) (cache : gmap K (cache_entry R)) : Prop :=
  ∀ key entry, cache !! key = Some entry → P key entry.

(** The cost result the page ends with, from what the two helpers returned
    and the amount in the number input. *)
Definition cost_of_rates {F : Type} `{PyNumber F}
    (historical current : option F * option Timestamp) (billions : F)
  : option (CostResult F) :=
  match historical.1, current.1 with
  | Some h, Some c => Some (compute_cost h c (num_mul billions (num_of_Z 1000000000)))
  | _, _ => None
  end.

(** A check over a range of integers, [count] of them from [low] up. *)
Fixpoint forall_range (count : nat) (low : Z) (check : Z → bool) : bool :=
  match count with
  | O => true
  | S rest => check low && forall_range rest (low + 1) check
  end.

(** The annual cost at a rate given in hundredths of a percent and a
    principal given in billions, on doubles and in exact arithmetic, and
    whether the page shows the same text for both. *)
Definition annual_cost {F : Type} `{PyNumber F} (billions hundredths : Z) : F :=
  current_interest_cost
    (compute_cost (percent hundredths) (percent hundredths)
       (num_mul (num_of_Z billions) (num_of_Z 1000000000))).

Definition shown_cost_is_exact (billions hundredths : Z) : bool :=
  String.eqb (format_f true 2 (annual_cost billions hundredths : float))
             (format_f true 2 (annual_cost billions hundredths : Q)).

(* ================================================================== *)
(** * Remote sources used as examples *)
(* ================================================================== *)

(** The 10-year series around the reference date: a holiday without a
    value, the reference date itself, and a later quotation. *)
Definition sample_source : Fred float := table_client
  [("DGS10", [(ordinal 2025 3 28, percent 427); (ordinal 2025 3 31, PrimFloat.nan);
              (ordinal 2025 4 1, percent 420); (ordinal 2025 7 31, percent 450)])].

(** A source that is down, and one with nothing but missing values. *)
Definition failing_source : Fred float :=
  {| get_series := λ _ _ _, Raise "Internal Server Error" |}.

Definition silent_source : Fred float :=
  {| get_series := λ _ _ _, Return [(ordinal 2025 3 31, PrimFloat.nan)] |}.

(** A source whose week before the reference date holds a holiday only,
    with a quotation before it and one after it. *)
Definition holiday_source : Fred float := table_client
  [("DGS10", [(ordinal 2025 3 20, percent 425); (ordinal 2025 3 31, PrimFloat.nan);
              (ordinal 2025 7 31, percent 450)])].

(** A source that lists the newest observation first. *)
Definition backwards_source : Fred float :=
  {| get_series := λ _ _ _,
       Return [(ordinal 2025 4 1, percent 420); (ordinal 2025 3 31, percent 427)] |}.

(** A source that ignores the end of the requested range. *)
Definition careless_source : Fred float :=
  {| get_series := λ _ _ _, Return [(ordinal 2025 4 2, percent 431)] |}.

(* ================================================================== *)
(** * Properties of the helper functions *)
(* ================================================================== *)

Lemma HISTORICAL_DATE_parsed : to_datetime HISTORICAL_DATE_STR = Some HISTORICAL_DATE.
Proof. reflexivity. Qed.

Lemma HISTORICAL_DATE_printed : strftime_ymd HISTORICAL_DATE = HISTORICAL_DATE_STR.
Proof. reflexivity. Qed.

Lemma py_index_minus_one {A} (l : list A) : py_index l (-1) = last l.
Proof.
  unfold py_index. rewrite last_lookup.
  destruct l as [|a l]; [reflexivity|].
  cbn [length]. change (-1 <? 0) with true. cbv iota.
  replace (Z.of_nat (S (length l)) + -1) with (Z.of_nat (length l)) by lia.
  rewrite (proj2 (Z.leb_le _ _)) by lia.
  rewrite (proj2 (Z.ltb_lt _ _)) by lia.
  cbn [andb pred]. by rewrite Nat2Z.id.
Qed.

Section ResolverFacts.
Context {F : Type} `{PyNumber F}.
Implicit Types (fred : Fred F) (data : Series F) (r : option F * option Timestamp).

Lemma last_available_resolved data : last_available data = Return (resolved data).
Proof.
  unfold last_available, resolved, iloc, index.
  rewrite py_index_minus_one.
  destruct (dropna data) as [|o l] eqn:E; [reflexivity|].
  cbn [empty negb].
  destruct (last (o :: l)) as [[d v]|] eqn:El; [reflexivity|].
  apply last_None in El. discriminate.
Qed.

Lemma get_fred_rate_returned fred series_id d data :
  get_series fred series_id (Some (d - 7)) (Some d) = Return data →
  get_fred_rate fred series_id d
  = (resolved data, [RemoteCall series_id (Some (d - 7)) (Some d)]).
Proof.
  intros E. unfold get_fred_rate, timedelta. cbv zeta. rewrite E, last_available_resolved.
  reflexivity.
Qed.

Lemma get_fred_rate_raised fred series_id d e :
  get_series fred series_id (Some (d - 7)) (Some d) = Raise e →
  get_fred_rate fred series_id d
  = ((None, None),
     [RemoteCall series_id (Some (d - 7)) (Some d);
      StError ("Error fetching historical FRED data for " +:+ series_id +:+ ": " +:+ e)]).
Proof. intros E. unfold get_fred_rate, timedelta. cbv zeta. rewrite E. reflexivity. Qed.

Lemma get_current_fred_rate_returned fred series_id data :
  get_series fred series_id None None = Return data →
  get_current_fred_rate fred series_id
  = (resolved data, [RemoteCall series_id None None]).
Proof.
  intros E. unfold get_current_fred_rate. rewrite E, last_available_resolved.
  reflexivity.
Qed.

Lemma get_current_fred_rate_raised fred series_id e :
  get_series fred series_id None None = Raise e →
  get_current_fred_rate fred series_id
  = ((None, None),
     [RemoteCall series_id None None;
      StError ("Error fetching current FRED data for " +:+ series_id +:+ ": " +:+ e)]).
Proof. intros E. unfold get_current_fred_rate. rewrite E. reflexivity. Qed.

Lemma resolved_coherent data : coherent (resolved data).
Proof.
  unfold resolved. destruct (last (dropna data)) as [[d v]|].
  - left. by exists v, d.
  - by right.
Qed.

Lemma get_fred_rate_coherent fred series_id d :
  coherent (get_fred_rate fred series_id d).1.
Proof.
  destruct (get_series fred series_id (Some (d - 7)) (Some d)) as [e|data] eqn:E.
  - rewrite (get_fred_rate_raised _ _ _ _ E). by right.
  - rewrite (get_fred_rate_returned _ _ _ _ E). apply resolved_coherent.
Qed.

Lemma get_current_fred_rate_coherent fred series_id :
  coherent (get_current_fred_rate fred series_id).1.
Proof.
  destruct (get_series fred series_id None None) as [e|data] eqn:E.
  - rewrite (get_current_fred_rate_raised _ _ _ E). by right.
  - rewrite (get_current_fred_rate_returned _ _ _ E). apply resolved_coherent.
Qed.

Lemma elem_of_dropna data o :
  o ∈ dropna data ↔ o ∈ data ∧ num_isna o.2 = false.
Proof. unfold dropna. rewrite list_elem_of_filter. tauto. Qed.

Lemma dropna_all_missing data :
  (∀ o, o ∈ data → num_isna o.2 = true) → dropna data = [].
Proof.
  intros Hall. apply elem_of_nil_inv. intros o [Ho Hv]%elem_of_dropna.
  rewrite (Hall o Ho) in Hv. discriminate.
Qed.

Lemma chronological_dropna data : chronological data → chronological (dropna data).
Proof.
  unfold chronological, dropna. induction data as [|o l IH]; [done|].
  rewrite fmap_cons. intros Hs. apply StronglySorted_inv in Hs as [Hl Ho].
  rewrite filter_cons. case_decide; [|by apply IH].
  rewrite fmap_cons. constructor; [by apply IH|].
  apply Forall_forall. intros d [o' [-> Ho']]%list_elem_of_fmap.
  apply list_elem_of_filter in Ho' as [_ Ho'].
  rewrite Forall_forall in Ho. apply Ho. apply list_elem_of_fmap. by exists o'.
Qed.

Lemma chronological_last_latest data o :
  chronological data → last data = Some o → ∀ o', o' ∈ data → o'.1 ≤ o.1.
Proof.
  unfold chronological. induction data as [|a l IH]; [done|].
  rewrite fmap_cons. intros Hs Hlast o' Ho'.
  apply StronglySorted_inv in Hs as [Hl Ha].
  destruct l as [|b l'].
  - cbn in Hlast. injection Hlast as <-. apply list_elem_of_singleton in Ho' as ->. lia.
  - change (last (a :: b :: l')) with (last (b :: l')) in Hlast.
    apply elem_of_cons in Ho' as [->|Ho']; [|by apply IH].
    rewrite Forall_forall in Ha. apply Ha. apply list_elem_of_fmap.
    exists o. split; [done|]. by apply last_Some_elem_of.
Qed.
End ResolverFacts.

Lemma table_client_honours_range {F} `{PyNumber F} (table : list (string * Series F)) :
  honours_range (table_client table).
Proof.
  intros series_id a b data E o Ho. cbn in E.
  destruct (getitem table series_id); [|discriminate].
  injection E as <-. by apply list_elem_of_filter in Ho as [Ho _].
Qed.

(* ================================================================== *)
(** * The resolvers *)
(* ================================================================== *)

(** C4, as the specification words it, speaks of the observations dated
    in the window, the helper returns of whatever was fetched: a source
    that ignores the end of the requested range has no observation in the
    window and yet gets a rate returned, dated after it. *)
Lemma rate_returned_for_an_empty_window :
  let fetched := [(ordinal 2025 4 2, percent 431 : float)] in
  get_series careless_source "DGS10" (Some (HISTORICAL_DATE - 7)) (Some HISTORICAL_DATE)
    = Return fetched
  ∧ (∀ o, o ∈ fetched → HISTORICAL_DATE - 7 ≤ o.1 ≤ HISTORICAL_DATE →
         num_isna o.2 = true)
  ∧ (get_fred_rate careless_source "DGS10" HISTORICAL_DATE).1
    = (Some (percent 431), Some (ordinal 2025 4 2)).
Proof.
  cbv zeta. split; [reflexivity|]. split; [|reflexivity].
  intros o Ho%list_elem_of_singleton Hwindow. subst o.
  vm_compute in Hwindow. destruct Hwindow as [_ Hend]. by destruct Hend.
Qed.

(** C4, amended. When the remote source answers a range request with
    observations of that range only, and the observations it returns that
    are dated from seven days before the target date to the target date
    are all missing, or there is none, the point-in-time helper returns
    [None, None]: no value and no date. *)
Theorem empty_window_gives_not_found :
  ∀ (F : Type) (N : PyNumber F) (fred : Fred F) (series_id : string) (date : Timestamp)
    (data : Series F),
    honours_range fred →
    get_series fred series_id (Some (date - 7)) (Some date) = Return data →
    (∀ o, o ∈ data → date - 7 ≤ o.1 ≤ date → num_isna o.2 = true) →
    (get_fred_rate fred series_id date).1 = (None, None).
Proof.
  intros F N fred series_id date data Hrange E Hall.
  rewrite (get_fred_rate_returned _ _ _ _ E). unfold resolved.
  rewrite dropna_all_missing; [done|].
  intros o Ho. apply Hall; [done|].
  pose proof (Hrange _ _ _ _ E _ Ho) as Hr. unfold in_range in Hr.
  apply andb_true_iff in Hr as [?%Z.leb_le ?%Z.leb_le]. lia.
Qed.

Lemma empty_window_gives_not_found_witness :
  get_series holiday_source "DGS10" (Some (HISTORICAL_DATE - 7)) (Some HISTORICAL_DATE)
    = Return [(ordinal 2025 3 31, PrimFloat.nan)]
  ∧ (get_fred_rate holiday_source "DGS10" HISTORICAL_DATE).1 = (None, None).
Proof.
  split; [reflexivity|].
  apply (empty_window_gives_not_found float binary64 holiday_source "DGS10" HISTORICAL_DATE
           [(ordinal 2025 3 31, PrimFloat.nan)]).
  - apply table_client_honours_range.
  - reflexivity.
  - intros o Ho%list_elem_of_singleton _. subst o. reflexivity.
Defined.

(** C5, as the specification words it: a caller could tell a failed fetch
    from an empty window by what the helper returns. The two sources below
    differ exactly in that, and both helpers return the same pair for
    them. *)
Lemma failure_looks_like_not_found :
  get_series failing_source "DGS10" (Some (HISTORICAL_DATE - 7)) (Some HISTORICAL_DATE)
    = Raise "Internal Server Error"
  ∧ get_series silent_source "DGS10" (Some (HISTORICAL_DATE - 7)) (Some HISTORICAL_DATE)
    = Return [(ordinal 2025 3 31, PrimFloat.nan)]
  ∧ (get_fred_rate failing_source "DGS10" HISTORICAL_DATE).1
    = (get_fred_rate silent_source "DGS10" HISTORICAL_DATE).1
  ∧ (get_current_fred_rate failing_source "DGS10").1
    = (get_current_fred_rate silent_source "DGS10").1.
Proof. repeat split; reflexivity. Qed.

(** C5, amended. When the remote call raises, each helper makes that one
    call, puts an error message naming the series and the exception on the
    page, and returns [None, None], the pair it also returns for an empty
    window. *)
Theorem remote_failure_is_reported_on_the_page_only :
  ∀ (F : Type) (N : PyNumber F) (fred : Fred F) (series_id : string) (date : Timestamp)
    (e : string),
    (get_series fred series_id (Some (date - 7)) (Some date) = Raise e →
     get_fred_rate fred series_id date
     = ((None, None),
        [RemoteCall series_id (Some (date - 7)) (Some date);
         StError ("Error fetching historical FRED data for " +:+ series_id +:+ ": " +:+ e)]))
    ∧ (get_series fred series_id None None = Raise e →
       get_current_fred_rate fred series_id
       = ((None, None),
          [RemoteCall series_id None None;
           StError ("Error fetching current FRED data for " +:+ series_id +:+ ": " +:+ e)])).
Proof.
  intros. split; intros E.
  - by apply get_fred_rate_raised.
  - by apply get_current_fred_rate_raised.
Qed.

Lemma remote_failure_is_reported_on_the_page_only_witness :
  get_fred_rate failing_source "DGS10" HISTORICAL_DATE
  = ((None, None),
     [RemoteCall "DGS10" (Some (HISTORICAL_DATE - 7)) (Some HISTORICAL_DATE);
      StError "Error fetching historical FRED data for DGS10: Internal Server Error"])
  ∧ get_current_fred_rate failing_source "DGS10"
    = ((None, None),
       [RemoteCall "DGS10" None None;
        StError "Error fetching current FRED data for DGS10: Internal Server Error"]).
Proof.
  destruct (remote_failure_is_reported_on_the_page_only float binary64 failing_source
              "DGS10" HISTORICAL_DATE "Internal Server Error") as [Hh Hc].
  split; [apply Hh | apply Hc]; reflexivity.
Defined.

(** C2, as the specification words it, fails on data that is not in date
    order: the helper takes the observation in the last position. *)
Lemma last_position_is_not_latest_date :
  let data := [(ordinal 2025 4 1, percent 420); (ordinal 2025 3 31, percent 427)] in
  get_series backwards_source "DGS10" (Some (HISTORICAL_DATE - 7)) (Some HISTORICAL_DATE)
    = Return data
  ∧ (get_fred_rate backwards_source "DGS10" HISTORICAL_DATE).1
    = (Some (percent 427), Some (ordinal 2025 3 31))
  ∧ ¬ latest_available data (get_fred_rate backwards_source "DGS10" HISTORICAL_DATE).1.
Proof.
  cbv zeta. split; [reflexivity|]. split; [reflexivity|].
  intros (v & d & E & _ & _ & Hmax).
  assert (Hd : d = ordinal 2025 3 31).
  { change (get_fred_rate backwards_source "DGS10" HISTORICAL_DATE).1
      with (Some (percent 427 : float), Some (ordinal 2025 3 31)) in E.
    congruence. }
  specialize (Hmax (ordinal 2025 4 1, percent 420)).
  rewrite Hd in Hmax. cbn [fst snd] in Hmax.
  assert (ordinal 2025 4 1 ≤ ordinal 2025 3 31) as Hle.
  { apply Hmax; [apply list_elem_of_here | reflexivity]. }
  vm_compute in Hle. by apply Hle.
Qed.

(** C2, amended. When the fetched observations are in date order and one
    of them is not missing, each helper drops the missing ones and returns
    the last that remains, which is then the one with the latest date,
    together with its date: within the seven-day window for the
    point-in-time helper, in all the fetched history for the current one. *)
Theorem chronological_data_gives_latest_observation :
  ∀ (F : Type) (N : PyNumber F) (fred : Fred F) (series_id : string) (date : Timestamp)
    (data : Series F),
    chronological data →
    (∃ o, o ∈ data ∧ num_isna o.2 = false) →
    (get_series fred series_id (Some (date - 7)) (Some date) = Return data →
     latest_available data (get_fred_rate fred series_id date).1)
    ∧ (get_series fred series_id None None = Return data →
       latest_available data (get_current_fred_rate fred series_id).1).
Proof.
  intros F N fred series_id date data Hsorted [o0 Ho0].
  assert (Hres : latest_available data (resolved data)).
  { unfold resolved, latest_available.
    destruct (last (dropna data)) as [[d v]|] eqn:El.
    - exists v, d. split; [done|].
      pose proof (last_Some_elem_of _ _ El) as [Hin Hv]%elem_of_dropna.
      split; [done|]. split; [done|].
      intros o Ho Hov.
      apply (chronological_last_latest (dropna data) (d, v));
        [by apply chronological_dropna | done | by apply elem_of_dropna].
    - apply last_None in El. apply elem_of_dropna in Ho0.
      rewrite El in Ho0. by apply elem_of_nil in Ho0. }
  split; intros E.
  - by rewrite (get_fred_rate_returned _ _ _ _ E).
  - by rewrite (get_current_fred_rate_returned _ _ _ E).
Qed.

Lemma chronological_data_gives_latest_observation_witness :
  let window := [(ordinal 2025 3 28, percent 427); (ordinal 2025 3 31, PrimFloat.nan);
                 (ordinal 2025 4 1, percent 420)] in
  latest_available window (get_fred_rate sample_source "DGS10" HISTORICAL_DATE).1.
Proof.
  cbv zeta.
  refine (proj1 (chronological_data_gives_latest_observation float binary64 sample_source
                   "DGS10" HISTORICAL_DATE _ _ _) _).
  - unfold chronological. vm_compute.
    repeat (constructor; [|repeat constructor; discriminate]). constructor.
  - exists (ordinal 2025 4 1, percent 420). split; [|reflexivity].
    do 2 apply list_elem_of_further. apply list_elem_of_here.
  - reflexivity.
Defined.

(** C3, as the specification words it, for every remote source: a source
    that ignores the end of the range makes the helper return an
    observation dated after the target date. *)
Lemma observation_after_target_date_returned :
  (get_fred_rate careless_source "DGS10" HISTORICAL_DATE).1
  = (Some (percent 431), Some (ordinal 2025 4 2))
  ∧ HISTORICAL_DATE < ordinal 2025 4 2.
Proof. split; reflexivity. Qed.

(** C3, amended. When the remote source answers a range request with
    observations of that range only, an observation returned by the
    point-in-time helper is dated on or before the target date (and at
    most seven days before it). *)
Theorem no_observation_after_target_date :
  ∀ (F : Type) (N : PyNumber F) (fred : Fred F) (series_id : string) (date : Timestamp)
    (v : F) (d : Timestamp),
    honours_range fred →
    (get_fred_rate fred series_id date).1 = (Some v, Some d) →
    date - 7 ≤ d ≤ date.
Proof.
  intros F N fred series_id date v d Hrange E.
  destruct (get_series fred series_id (Some (date - 7)) (Some date)) as [e|data] eqn:Eg.
  - rewrite (get_fred_rate_raised _ _ _ _ Eg) in E. discriminate.
  - rewrite (get_fred_rate_returned _ _ _ _ Eg) in E. unfold resolved in E.
    destruct (last (dropna data)) as [[d' v']|] eqn:El; [|discriminate].
    cbn in E. injection E as -> ->.
    pose proof (last_Some_elem_of _ _ El) as [Hin _]%elem_of_dropna.
    pose proof (Hrange _ _ _ _ Eg _ Hin) as Hr. unfold in_range in Hr. cbn [fst] in Hr.
    apply andb_true_iff in Hr as [?%Z.leb_le ?%Z.leb_le]. lia.
Qed.

Lemma no_observation_after_target_date_witness :
  HISTORICAL_DATE - 7 ≤ ordinal 2025 4 1 ≤ HISTORICAL_DATE.
Proof.
  apply (no_observation_after_target_date float binary64 sample_source "DGS10"
           HISTORICAL_DATE (percent 420) (ordinal 2025 4 1)).
  - apply table_client_honours_range.
  - reflexivity.
Defined.

(* ================================================================== *)
(** * The cache *)
(* ================================================================== *)

Section CacheFacts.
Context {U K R : Type} `{Countable K}.
Variables (ttl : Z) (f : U → K → Eff R) (u : U).
Implicit Types (cache : gmap K (cache_entry R)).

Lemma cache_agrees_empty : cache_agrees f u ∅.
Proof. intros key entry E. by rewrite lookup_empty in E. Qed.

Lemma cache_data_cases now key cache :
  (∃ entry, cache !! key = Some entry
            ∧ cache_data ttl f now u key cache
              = ((cached_value entry, cached_elements entry), cache))
  ∨ cache_data ttl f now u key cache
    = (f u key,
       <[key := mkEntry (f u key).1
                  (filter (λ e, is_remote_call e = false) (f u key).2) now]> cache).
Proof.
  unfold cache_data. destruct (f u key) as [r log] eqn:Ef.
  destruct (cache !! key) as [entry|] eqn:El; [|by right].
  destruct (now <? stored_at entry + ttl); [left; by exists entry | by right].
Qed.

Lemma cache_data_value now key cache :
  cache_agrees f u cache → (cache_data ttl f now u key cache).1.1 = (f u key).1.
Proof.
  intros Hc. destruct (cache_data_cases now key cache) as [(entry & El & ->) | ->].
  - by apply Hc.
  - done.
Qed.

Lemma cache_data_agrees now key cache :
  cache_agrees f u cache → cache_agrees f u (cache_data ttl f now u key cache).2.
Proof.
  intros Hc. destruct (cache_data_cases now key cache) as [(entry & El & ->) | ->].
  - done.
  - intros k e. cbn [snd]. rewrite lookup_insert. case_decide as Hk.
    + subst k. by intros [= <-].
    + apply Hc.
Qed.

Lemma cache_after_agrees earlier cache :
  cache_agrees f u cache → cache_agrees f u (cache_after ttl f u earlier cache).
Proof.
  revert cache. induction earlier as [|[now key] rest IH]; intros cache Hc; [done|].
  cbn [cache_after]. apply IH. by apply cache_data_agrees.
Qed.
End CacheFacts.

Section CacheClean.
Context {U K R : Type} `{Countable K}.
Implicit Types (cache : gmap K (cache_entry R)).

Lemma cache_clean_empty : cache_clean (∅ : gmap K (cache_entry R)).
Proof. intros key entry E. by rewrite lookup_empty in E. Qed.

Lemma cache_data_clean ttl (f : U → K → Eff R) now u key cache :
  cache_clean cache → cache_clean (cache_data ttl f now u key cache).2.
Proof.
  intros Hc. destruct (cache_data_cases ttl f u now key cache) as [(entry & El & ->) | ->].
  - done.
  - intros k e. cbn [snd]. rewrite lookup_insert. case_decide as Hk.
    + intros [= <-]. cbn. apply Forall_forall. by intros ev [? _]%list_elem_of_filter.
    + apply Hc.
Qed.

(** The remote calls of a cached call are remote calls of the function
    itself; a call answered from the cache makes none. *)
Lemma cache_data_remote_calls ttl (f : U → K → Eff R) now u key cache e :
  cache_clean cache →
  e ∈ (cache_data ttl f now u key cache).1.2 → is_remote_call e = true →
  e ∈ (f u key).2.
Proof.
  intros Hc. destruct (cache_data_cases ttl f u now key cache) as [(entry & El & ->) | ->].
  - cbn. intros He Hr. pose proof (Hc _ _ El) as Hclean.
    rewrite Forall_forall in Hclean. rewrite (Hclean _ He) in Hr. discriminate.
  - by destruct (f u key).
Qed.

Lemma cache_hit_is_local ttl (f : U → K → Eff R) now u key cache entry :
  cache_clean cache → cache !! key = Some entry → now < stored_at entry + ttl →
  Forall (λ e, is_remote_call e = false) (cache_data ttl f now u key cache).1.2.
Proof.
  intros Hc El Hfresh. unfold cache_data. rewrite El.
  rewrite (proj2 (Z.ltb_lt _ _) Hfresh). destruct (f u key). cbn.
  by apply (Hc key).
Qed.
End CacheClean.

(** The key leaves the client out, so that one source throughout is a
    premise that matters: within its lifetime an entry answers for whatever
    source the call is made with. *)
Lemma cache_answers_within_its_lifetime :
  let first := cached_get_fred_rate 0 sample_source "DGS10" HISTORICAL_DATE ∅ in
  let second := cached_get_fred_rate 3599 failing_source "DGS10" HISTORICAL_DATE first.2 in
  let third := cached_get_fred_rate 3600 failing_source "DGS10" HISTORICAL_DATE first.2 in
  second.1 = ((Some (percent 420), Some HISTORICAL_DATE), [])
  ∧ third.1.1 = (None, None).
Proof. split; reflexivity. Qed.

(** C8, as the specification words it, asks for a source unchanged between
    the two calls only. The cache can hold what an earlier call stored when
    the source was another: here the source was down at time 0, and of two
    identical calls against the same source afterwards the first, one
    second before the entry expires, returns the stored [None, None], the
    second the rate of the source. *)
Lemma stale_entry_makes_identical_calls_differ :
  let warmed := (cached_get_fred_rate 0 failing_source "DGS10" HISTORICAL_DATE ∅).2 in
  let first := cached_get_fred_rate 3599 sample_source "DGS10" HISTORICAL_DATE warmed in
  let second := cached_get_fred_rate 3600 sample_source "DGS10" HISTORICAL_DATE first.2 in
  first.1.1 = (None, None)
  ∧ second.1.1 = (Some (percent 420), Some HISTORICAL_DATE)
  ∧ (get_fred_rate sample_source "DGS10" HISTORICAL_DATE).1
    = (Some (percent 420), Some HISTORICAL_DATE)
  ∧ first.1.1 ≠ second.1.1.
Proof.
  cbv zeta. split; [reflexivity|]. split; [reflexivity|]. split; [reflexivity|].
  intros E. vm_compute in E. discriminate E.
Qed.

(** C8, amended. When every call since the cache was empty was made
    against one and the same remote source, two calls of the cached
    point-in-time helper with the same series and date return the same
    pair, whatever calls came before them and at whatever times, and it is
    the pair the helper computes without a cache; the same holds for the
    current helper. *)
Theorem cached_calls_agree :
  ∀ (F : Type) (N : PyNumber F) (fred : Fred F),
    (∀ (earlier : list (Z * (string * Timestamp))) (series_id : string) (date : Timestamp)
       (t1 t2 : Z),
       let cache0 := cache_after 3600 (λ c k, get_fred_rate c k.1 k.2) fred earlier ∅ in
       let first := cached_get_fred_rate t1 fred series_id date cache0 in
       let second := cached_get_fred_rate t2 fred series_id date first.2 in
       first.1.1 = second.1.1
       ∧ first.1.1 = (get_fred_rate fred series_id date).1)
    ∧ (∀ (earlier : list (Z * string)) (series_id : string) (t1 t2 : Z),
         let cache0 := cache_after 900 get_current_fred_rate fred earlier ∅ in
         let first := cached_get_current_fred_rate t1 fred series_id cache0 in
         let second := cached_get_current_fred_rate t2 fred series_id first.2 in
         first.1.1 = second.1.1
         ∧ first.1.1 = (get_current_fred_rate fred series_id).1).
Proof.
  intros F N fred. split.
  - intros earlier series_id date t1 t2. cbv zeta. unfold cached_get_fred_rate.
    set (f := λ (c : Fred F) (k : string * Timestamp), get_fred_rate c k.1 k.2).
    assert (H0 : cache_agrees f fred (cache_after 3600 f fred earlier ∅))
      by apply cache_after_agrees, cache_agrees_empty.
    pose proof (cache_data_agrees 3600 f fred t1 (series_id, date) _ H0) as H1.
    rewrite (cache_data_value 3600 f fred t2 _ _ H1).
    by rewrite (cache_data_value 3600 f fred t1 _ _ H0).
  - intros earlier series_id t1 t2. cbv zeta. unfold cached_get_current_fred_rate.
    set (f := @get_current_fred_rate F N).
    assert (H0 : cache_agrees f fred (cache_after 900 f fred earlier ∅))
      by apply cache_after_agrees, cache_agrees_empty.
    pose proof (cache_data_agrees 900 f fred t1 series_id _ H0) as H1.
    rewrite (cache_data_value 900 f fred t2 _ _ H1).
    by rewrite (cache_data_value 900 f fred t1 _ _ H0).
Qed.

(* ================================================================== *)
(** * The page *)
(* ================================================================== *)

Lemma getitem_values {B} (d : list (string * B)) (k : string) (v : B) :
  getitem d k = Some v → v ∈ values d.
Proof.
  unfold values. induction d as [|[k' v'] d IH]; [done|].
  cbn [getitem]. rewrite fmap_cons. case_bool_decide.
  - intros [= ->]. apply list_elem_of_here.
  - intros E. apply list_elem_of_further. by apply IH.
Qed.

Lemma local_from_catalogue e : is_remote_call e = false → from_catalogue e.
Proof. by destruct e. Qed.

(** Goes through an explicit log, one event at a time. *)
Ltac check_log :=
  repeat first
    [ apply Forall_nil_2
    | apply Forall_cons_2; [first [assumption | exact I]|] ].

Lemma cached_log_from_catalogue {U K R : Type} `{Countable K}
    ttl (f : U → K → Eff R) now u key (cache : gmap K (cache_entry R)) :
  cache_clean cache →
  Forall from_catalogue (f u key).2 →
  Forall from_catalogue (cache_data ttl f now u key cache).1.2.
Proof.
  intros Hc Hf. apply Forall_forall. intros e He.
  destruct (is_remote_call e) eqn:Hr; [|by apply local_from_catalogue].
  rewrite Forall_forall in Hf. apply Hf. by eapply cache_data_remote_calls.
Qed.

Section PageFacts.
Context {F : Type} `{PyNumber F}.
Implicit Types (fred : Fred F) (s : AppState F).

Lemma get_fred_rate_log fred series_id d :
  series_id ∈ values FRED_SERIES →
  Forall from_catalogue (get_fred_rate fred series_id d).2.
Proof.
  intros Hid.
  destruct (get_series fred series_id (Some (d - 7)) (Some d)) as [e|data] eqn:E.
  - rewrite (get_fred_rate_raised _ _ _ _ E). cbn [snd]. check_log.
  - rewrite (get_fred_rate_returned _ _ _ _ E). cbn [snd]. check_log.
Qed.

Lemma get_current_fred_rate_log fred series_id :
  series_id ∈ values FRED_SERIES →
  Forall from_catalogue (get_current_fred_rate fred series_id).2.
Proof.
  intros Hid.
  destruct (get_series fred series_id None None) as [e|data] eqn:E.
  - rewrite (get_current_fred_rate_raised _ _ _ E). cbn [snd]. check_log.
  - rewrite (get_current_fred_rate_returned _ _ _ E). cbn [snd]. check_log.
Qed.

Lemma script_sound fred now s :
  caches_clean s →
  caches_clean (script fred now s).1.2
  ∧ maturity_index (script fred now s).1.2 = maturity_index s
  ∧ debt_amount_billions (script fred now s).1.2 = debt_amount_billions s
  ∧ Forall from_catalogue (script fred now s).2.
Proof.
  intros [Hh Hc]. unfold script.
  destruct (selectbox_options !! maturity_index s) as [name|]; [|by repeat split].
  destruct (getitem FRED_SERIES name) as [series_id|] eqn:Eid; [|by repeat split].
  apply getitem_values in Eid.
  pose proof (cache_data_clean 3600 (λ c k, get_fred_rate c k.1 k.2) now fred
                (series_id, HISTORICAL_DATE) _ Hh) as Hh'.
  pose proof (cached_log_from_catalogue 3600 (λ c k, get_fred_rate c k.1 k.2) now fred
                (series_id, HISTORICAL_DATE) _ Hh
                (get_fred_rate_log fred series_id HISTORICAL_DATE Eid)) as Hlog1.
  pose proof (cache_data_clean 900 get_current_fred_rate now fred series_id _ Hc) as Hc'.
  pose proof (cached_log_from_catalogue 900 get_current_fred_rate now fred series_id _ Hc
                (get_current_fred_rate_log fred series_id Eid)) as Hlog2.
  fold (cached_get_fred_rate now fred series_id HISTORICAL_DATE (historical_cache s))
    in Hh', Hlog1.
  fold (cached_get_current_fred_rate now fred series_id (current_cache s)) in Hc', Hlog2.
  destruct (cached_get_fred_rate now fred series_id HISTORICAL_DATE (historical_cache s))
    as [[[hr hd] log1] hcache].
  destruct (cached_get_current_fred_rate now fred series_id (current_cache s))
    as [[[cr cd] log2] ccache].
  cbn [fst snd] in *.
  destruct hr as [h|], hd as [dh|], cr as [c|], cd as [dc|]; cbn [fst snd];
    (split; [by split|]); (split; [done|]); (split; [done|]);
    rewrite ?Forall_app; repeat split; try done; check_log.
Qed.

Lemma accept_sound a s : caches_clean s → caches_clean (accept a s).
Proof. intros Hs. by destruct a. Qed.

Lemma step_sound fred now a s :
  caches_clean s →
  caches_clean (step fred now a s).1 ∧ Forall from_catalogue (step fred now a s).2.
Proof.
  intros Hs. unfold step.
  pose proof (script_sound fred now _ (accept_sound a s Hs)) as (? & _ & _ & ?).
  by destruct (script fred now (accept a s)) as [[out s''] log].
Qed.

Lemma session_sound (fred : Z → Fred F) todo s :
  caches_clean s →
  caches_clean (session fred todo s).1 ∧ Forall from_catalogue (session fred todo s).2.
Proof.
  revert s. induction todo as [|[now a] rest IH]; intros s Hs; [by split|].
  cbn [session].
  pose proof (step_sound (fred now) now a s Hs) as [Hs' Hlog].
  destruct (step (fred now) now a s) as [s' log].
  pose proof (IH s' Hs') as [Hs'' Hlog'].
  destruct (session fred rest s') as [s'' log'].
  split; [done|]. apply Forall_app. by split.
Qed.

Lemma initial_state_clean : caches_clean (initial_state (F:=F)).
Proof. split; apply cache_clean_empty. Qed.



(** The script leaves the widgets as they are. *)
Lemma script_keeps_amount fred now s :
  debt_amount_billions (script fred now s).1.2 = debt_amount_billions s.
Proof.
  unfold script.
  destruct (selectbox_options !! maturity_index s) as [name|]; [|done].
  destruct (getitem FRED_SERIES name) as [series_id|]; [|done].
  destruct (cached_get_fred_rate now fred series_id HISTORICAL_DATE (historical_cache s))
    as [[[hr hd] log1] hcache].
  destruct (cached_get_current_fred_rate now fred series_id (current_cache s))
    as [[[cr cd] log2] ccache].
  by destruct hr, hd, cr, cd.
Qed.


End PageFacts.

(** The script does not fail: from the first load of the page on, the
    select box is on an option of the catalogue and what the helpers return
    has a date whenever it has a rate, so that no run ends in an
    exception. *)
Lemma cache_data_coherent {U K F : Type} `{Countable K} ttl
    (f : U → K → Eff (option F * option Timestamp)) now u key
    (cache : gmap K (cache_entry (option F * option Timestamp))) :
  (∀ k, coherent (f u k).1) → cache_coherent cache →
  coherent (cache_data ttl f now u key cache).1.1
  ∧ cache_coherent (cache_data ttl f now u key cache).2.
Proof.
  intros Hf Hc. destruct (cache_data_cases ttl f u now key cache) as [(entry & El & ->) | ->].
  - split; [by apply (Hc key)|done].
  - split; [apply Hf|]. intros k e. cbn [snd]. rewrite lookup_insert. case_decide.
    + intros [= <-]. apply Hf.
    + apply Hc.
Qed.

Lemma catalogue_lookup (i : nat) :
  (i < length (keys FRED_SERIES))%nat →
  ∃ name series_id,
    keys FRED_SERIES !! i = Some name ∧ getitem FRED_SERIES name = Some series_id.
Proof.
  intros Hi. do 5 (destruct i as [|i]; [by eexists _, _|]). cbn in Hi. lia.
Qed.

Section PageNeverFails.
Context {F : Type} `{PyNumber F}.
Implicit Types (fred : Fred F) (s : AppState F).

Lemma script_returns fred now s :
  page_invariant s →
  (∃ result, (script fred now s).1.1 = Return result)
  ∧ page_invariant (script fred now s).1.2.
Proof.
  intros (Hi & Hh & Hc). unfold script, selectbox_options.
  destruct (catalogue_lookup _ Hi) as (name & series_id & -> & ->).
  pose proof (cache_data_coherent 3600 (λ c k, get_fred_rate c k.1 k.2) now fred
                (series_id, HISTORICAL_DATE) _
                (λ k, get_fred_rate_coherent fred k.1 k.2) Hh) as [Hr1 Hh'].
  pose proof (cache_data_coherent 900 get_current_fred_rate now fred series_id _
                (get_current_fred_rate_coherent fred) Hc) as [Hr2 Hc'].
  fold (cached_get_fred_rate now fred series_id HISTORICAL_DATE (historical_cache s))
    in Hr1, Hh'.
  fold (cached_get_current_fred_rate now fred series_id (current_cache s)) in Hr2, Hc'.
  destruct (cached_get_fred_rate now fred series_id HISTORICAL_DATE (historical_cache s))
    as [[r1 log1] hcache].
  destruct (cached_get_current_fred_rate now fred series_id (current_cache s))
    as [[r2 log2] ccache].
  cbn [fst snd] in *.
  destruct Hr1 as [(h & dh & ->) | ->], Hr2 as [(c & dc & ->) | ->]; cbn [fst snd];
    (split; [by eexists | by repeat split]).
Qed.

Lemma accept_keeps_invariant a s : page_invariant s → page_invariant (accept a s).
Proof.
  intros (Hi & Hh & Hc). destruct a as [|i|x]; cbn [accept].
  - split; [change (3 < 5)%nat; lia|by split].
  - split; [apply fin_to_nat_lt|by split].
  - by repeat split.
Qed.

Lemma step_keeps_invariant fred now a s :
  page_invariant s → page_invariant (step fred now a s).1.
Proof.
  intros Hs. unfold step.
  pose proof (script_returns fred now _ (accept_keeps_invariant a s Hs)) as [_ ?].
  by destruct (script fred now (accept a s)) as [[out s''] log].
Qed.

Lemma session_keeps_invariant (fred : Z → Fred F) todo s :
  page_invariant s → page_invariant (session fred todo s).1.
Proof.
  revert s. induction todo as [|[now a] rest IH]; intros s Hs; [done|].
  cbn [session]. pose proof (step_keeps_invariant (fred now) now a s Hs) as Hs'.
  destruct (step (fred now) now a s) as [s' log].
  specialize (IH s' Hs'). by destruct (session fred rest s') as [s'' log'].
Qed.

Lemma initial_state_invariant : page_invariant (initial_state (F:=F)).
Proof.
  split; [change (3 < 5)%nat; lia|].
  split; intros key entry E; cbn [initial_state historical_cache current_cache] in E;
    by rewrite lookup_empty in E.
Qed.

Lemma script_never_fails (fred : Z → Fred F) todo (later : Fred F) now :
  ∃ result, (script later now (session fred todo initial_state).1).1.1 = Return result.
Proof. apply script_returns, session_keeps_invariant, initial_state_invariant. Qed.
End PageNeverFails.

(** C10. Both helpers return a coherent pair whatever the remote source
    does: a rate together with its date, or [None, None]; never one
    without the other. This holds of the functions themselves and of their
    cached versions as the page calls them, at any point of any session. *)
Theorem resolvers_return_coherent_pairs :
  ∀ (F : Type) (N : PyNumber F) (fred : Fred F) (series_id : string) (date : Timestamp),
    coherent (get_fred_rate fred series_id date).1
    ∧ coherent (get_current_fred_rate fred series_id).1
    ∧ ∀ (earlier : Z → Fred F) (todo : list (Z * action F)) (now : Z),
        let s := (session earlier todo initial_state).1 in
        coherent (cached_get_fred_rate now fred series_id date (historical_cache s)).1.1
        ∧ coherent (cached_get_current_fred_rate now fred series_id (current_cache s)).1.1.
Proof.
  intros. split; [apply get_fred_rate_coherent|].
  split; [apply get_current_fred_rate_coherent|].
  intros earlier todo now s.
  assert (page_invariant s) as (_ & Hh & Hc)
    by apply session_keeps_invariant, initial_state_invariant.
  split.
  - apply (cache_data_coherent 3600 (λ c k, get_fred_rate c k.1 k.2)); [|done].
    intros k. apply get_fred_rate_coherent.
  - apply (cache_data_coherent 900 get_current_fred_rate); [|done].
    intros k. apply get_current_fred_rate_coherent.
Qed.

(** In exact arithmetic the amount on the page never falls below the
    minimum of the number input. *)
Lemma session_amount_exact (fred : Z → Fred Q) todo (s : AppState Q) :
  (1 <= debt_amount_billions s)%Q →
  (1 <= debt_amount_billions (session fred todo s).1)%Q.
Proof.
  revert s. induction todo as [|[now a] rest IH]; intros s Hs; [done|].
  cbn [session].
  assert (1 <= debt_amount_billions (step (fred now) now a s).1)%Q as Hs'.
  { unfold step.
    assert (1 <= debt_amount_billions (accept a s))%Q as Hacc.
    { destruct a as [|i|x]; cbn [accept debt_amount_billions].
      - change (1 <= inject_Z 100)%Q. unfold Qle. cbn. lia.
      - done.
      - change (num_ltb x number_input_min_value) with (negb (Qle_bool 1 x)).
        destruct (Qle_bool 1 x) eqn:Hx; cbn [negb].
        + by apply Qle_bool_iff.
        + change (1 <= inject_Z 100)%Q. unfold Qle. cbn. lia. }
    pose proof (script_keeps_amount (fred now) now (accept a s)) as E.
    destruct (script (fred now) now (accept a s)) as [[out s'] log]. cbn [fst snd] in *.
    by rewrite E. }
  destruct (step (fred now) now a s) as [s' log]. cbn [fst] in Hs'.
  specialize (IH s' Hs'). by destruct (session fred rest s') as [s'' log'].
Qed.






(* ================================================================== *)
(** * The cost calculation *)
(* ================================================================== *)

(** C1. The script computes the historical cost as the principal times the
    historical rate over 100, the current cost as the principal times the
    current rate over 100, and the additional cost as their difference:
    literally so in any arithmetic, with the rate divided first; and in
    exact arithmetic that is [principal * rate / 100]. *)
Theorem cost_formulas :
  (∀ (F : Type) (N : PyNumber F) (historical_rate current_rate principal : F),
     let r := compute_cost historical_rate current_rate principal in
     historical_interest_cost r = num_mul principal (num_div historical_rate (num_of_Z 100))
     ∧ current_interest_cost r = num_mul principal (num_div current_rate (num_of_Z 100))
     ∧ additional_cost r = num_sub (current_interest_cost r) (historical_interest_cost r))
  ∧ (∀ historical_rate current_rate principal : Q,
       let r := compute_cost historical_rate current_rate principal in
       historical_interest_cost r == principal * historical_rate / 100
       ∧ current_interest_cost r == principal * current_rate / 100
       ∧ additional_cost r == current_interest_cost r - historical_interest_cost r)%Q.
Proof.
  split.
  - intros. by repeat split.
  - intros h c p. cbv zeta. unfold compute_cost. cbn.
    repeat split; try reflexivity; field.
Qed.

(** With no principal the additional cost is zero although the current
    rate exceeds the historical one, in exact arithmetic and on doubles
    alike; the page never computes with it, the number input starting at
    1.0. *)
Lemma zero_principal_gives_zero_whatever_the_rates :
  (1 < 2)%Q
  ∧ (additional_cost (compute_cost 1 2 0) == 0)%Q
  ∧ ¬ (0 < additional_cost (compute_cost 1 2 0))%Q
  ∧ additional_cost (compute_cost (float_of_Z 1) (float_of_Z 2) (float_of_Z 0))
    = float_of_Z 0.
Proof. repeat split. intros Hpos. discriminate Hpos. Qed.


(** C7. With a historical rate of 4.20%, a current rate of 4.50% and a
    principal of 100,000,000,000 dollars the historical annual cost is
    4,200,000,000 dollars, the current one 4,500,000,000 and the additional
    one 300,000,000: exactly so in exact arithmetic, and as the amounts the
    page shows when it is loaded, the script running on doubles against a
    source holding these two rates for the 10-year series. *)
Theorem scenario_ten_year_treasury :
  (let r := compute_cost (percent 420) (percent 450) scenario_principal in
   historical_interest_cost r == 4200000000
   ∧ current_interest_cost r == 4500000000
   ∧ additional_cost r == 300000000)%Q
  ∧ (step sample_source 0 Load initial_state).2
    = [ RemoteCall "DGS10" (Some (HISTORICAL_DATE - 7)) (Some HISTORICAL_DATE);
        StMetric "10-Year Treasury Yield (as of 2025-04-01)" "4.20%" None "normal";
        RemoteCall "DGS10" None None;
        StMetric "10-Year Treasury Yield (as of 2025-07-31)" "4.50%" None "normal";
        StMetric "Change in Yield" "0.30%" (Some "0.30% pts") "normal";
        StWrite "For refinancing **$100.0 billion** of debt:";
        StMetric "Est. Annual Interest Cost at 4.20%" "$4,200,000,000.00" None "normal";
        StMetric "Est. Annual Interest Cost at 4.50%" "$4,500,000,000.00" None "normal";
        StMetric "Additional Annual Interest Cost" "$300,000,000.00"
                 (Some "$300,000,000.00") "normal" ].
Proof.
  split.
  - cbv zeta. repeat split; reflexivity.
  - vm_compute. reflexivity.
Qed.

(** On doubles the amounts behind the page of the scenario are not the
    round numbers: dividing the rate by 100 first rounds, and the historical
    cost comes out 2^-21 dollar above 4,200,000,000, the additional cost
    2^-21 dollar below 300,000,000. Formatting to cents hides it. *)
Lemma scenario_on_doubles :
  let r := compute_cost (percent 420 : float) (percent 450) scenario_principal in
  let ulp := float_of_Z 2097152 in
  PrimFloat.mul (PrimFloat.sub (historical_interest_cost r) (float_of_Z 4200000000)) ulp
    = PrimFloat.one
  ∧ current_interest_cost r = float_of_Z 4500000000
  ∧ PrimFloat.mul (PrimFloat.sub (float_of_Z 300000000) (additional_cost r)) ulp
    = PrimFloat.one
  ∧ PrimFloat.div (PrimFloat.mul scenario_principal (percent 420)) (float_of_Z 100)
    = float_of_Z 4200000000.
Proof. repeat split. Qed.

(** On doubles the sign rule cannot be had from algebra, but it can be
    checked where the rates live: for the default principal and all rates
    with two decimals from 0.00% to 20.00%. *)
Lemma later_costs_higher_lookup costs i j low high :
  later_costs_higher costs = true →
  costs !! i = Some low → costs !! j = Some high →
  (i < j)%nat → cost_gap_ok low high = true.
Proof.
  revert i j. induction costs as [|x rest IH]; intros i j Hok Hi Hj Hlt; [done|].
  cbn [later_costs_higher] in Hok.
  apply andb_true_iff in Hok as [[_ Hgaps]%andb_true_iff Hrest].
  destruct i as [|i].
  - injection Hi as ->. destruct j as [|j]; [lia|]. cbn in Hj.
    rewrite forallb_forall in Hgaps. apply Hgaps.
    apply list_elem_of_In. by eapply list_elem_of_lookup_2.
  - destruct j as [|j]; [lia|]. cbn in Hi, Hj.
    apply (IH i j); [done..|lia].
Qed.

Lemma later_costs_higher_same costs i low :
  later_costs_higher costs = true → costs !! i = Some low →
  PrimFloat.eqb (PrimFloat.sub low low) PrimFloat.zero = true.
Proof.
  revert i. induction costs as [|x rest IH]; intros i Hok Hi; [done|].
  cbn [later_costs_higher] in Hok.
  apply andb_true_iff in Hok as [[Hsame _]%andb_true_iff Hrest].
  destruct i as [|i]; [by injection Hi as -> | by apply (IH i)].
Qed.

Lemma cost_table_lookup principal top (n : Z) :
  0 ≤ n ≤ Z.of_nat top →
  cost_table principal top !! Z.to_nat n = Some (cost_at principal n).
Proof.
  intros Hn. unfold cost_table. rewrite list_lookup_fmap, lookup_seq_lt by lia.
  cbn. by rewrite Z2Nat.id by lia.
Qed.






(** X14. On doubles, for the default principal of 100 billion and any two
    rates with two decimals between 0.00% and 20.00%, the additional cost
    is above zero when the current rate is the higher one, below zero when
    it is the lower one and zero when the two are equal. *)
Lemma sign_rule_on_doubles :
  ∀ historical current : Z,
    0 ≤ historical ≤ 2000 → 0 ≤ current ≤ 2000 →
    sign_agrees scenario_principal historical current = true.
Proof.
  assert (Htable : later_costs_higher (cost_table scenario_principal 2000) = true)
    by (vm_compute; reflexivity).
  intros h c Hh Hc. unfold sign_agrees, compute_cost. cbn [additional_cost].
  pose proof (cost_table_lookup scenario_principal 2000 h ltac:(lia)) as Eh.
  pose proof (cost_table_lookup scenario_principal 2000 c ltac:(lia)) as Ec.
  destruct (Z.compare_spec h c) as [->|Hlt|Hgt].
  - by apply (later_costs_higher_same _ _ _ Htable Ec).
  - pose proof (later_costs_higher_lookup _ _ _ _ _ Htable Eh Ec ltac:(lia)) as Hgap.
    by apply andb_true_iff in Hgap as [? _].
  - pose proof (later_costs_higher_lookup _ _ _ _ _ Htable Ec Eh ltac:(lia)) as Hgap.
    by apply andb_true_iff in Hgap as [_ ?].
Qed.

(* ================================================================== *)
(** * Further properties of the helper functions *)
(* ================================================================== *)

Section MoreResolverFacts.
Context {F : Type} `{PyNumber F}.
Implicit Types (fred : Fred F) (data : Series F).

Lemma resolved_found data v d :
  resolved data = (Some v, Some d) →
  ∃ before after, data = before ++ (d, v) :: after
    ∧ num_isna v = false
    ∧ ∀ o, o ∈ after → num_isna o.2 = true.
Proof.
  unfold resolved. destruct (last (dropna data)) as [[d' v']|] eqn:El; [|done].
  intros [= -> ->].
  pose proof (last_Some_elem_of _ _ El) as [_ Hv]%elem_of_dropna.
  apply last_filter_Some in El as (before & after & -> & Hafter).
  exists before, after. split; [done|]. split; [done|].
  intros o Ho. rewrite Forall_forall in Hafter. specialize (Hafter o Ho).
  cbn in Hafter. by destruct (num_isna o.2).
Qed.

Lemma resolved_not_found data :
  resolved data = (None, None) ↔ ∀ o, o ∈ data → num_isna o.2 = true.
Proof.
  split.
  - unfold resolved. destruct (last (dropna data)) as [[d v]|] eqn:El; [done|].
    intros _ o Ho. apply last_None in El.
    destruct (num_isna o.2) eqn:Hv; [done|].
    assert (o ∈ dropna data) as Hin by by apply elem_of_dropna.
    rewrite El in Hin. by apply elem_of_nil in Hin.
  - intros Hall. unfold resolved. by rewrite (dropna_all_missing _ Hall).
Qed.

Lemma resolved_latest data :
  chronological data →
  (∃ o, o ∈ data ∧ num_isna o.2 = false) →
  latest_available data (resolved data).
Proof.
  intros Hsorted [o0 Ho0]. unfold resolved, latest_available.
  destruct (last (dropna data)) as [[d v]|] eqn:El.
  - exists v, d. split; [done|].
    pose proof (last_Some_elem_of _ _ El) as [Hin Hv]%elem_of_dropna.
    split; [done|]. split; [done|].
    intros o Ho Hov.
    apply (chronological_last_latest (dropna data) (d, v));
      [by apply chronological_dropna | done | by apply elem_of_dropna].
  - apply last_None in El. apply elem_of_dropna in Ho0.
    rewrite El in Ho0. by apply elem_of_nil in Ho0.
Qed.

Lemma one_per_date_chronological data : one_per_date data → chronological data.
Proof.
  unfold one_per_date, chronological. generalize (data.*1). intros l Hl.
  induction Hl as [|a l Hl IH Ha]; constructor; [done|].
  eapply Forall_impl; [exact Ha|]. intros; cbn in *; lia.
Qed.

Lemma one_per_date_unique data d v v' :
  one_per_date data → (d, v) ∈ data → (d, v') ∈ data → v = v'.
Proof.
  unfold one_per_date. induction data as [|[d0 v0] l IH]; [by intros _ ?%elem_of_nil|].
  rewrite fmap_cons. intros Hs. apply StronglySorted_inv in Hs as [Hl Hd0].
  rewrite Forall_forall in Hd0.
  assert (∀ w, (d, w) ∈ l → d0 < d) as Hlater.
  { intros w Hw. apply Hd0. apply list_elem_of_fmap. by exists (d, w). }
  intros [E|Hin]%elem_of_cons [E'|Hin']%elem_of_cons.
  - congruence.
  - specialize (Hlater _ Hin'). injection E as -> _. lia.
  - specialize (Hlater _ Hin). injection E' as -> _. lia.
  - by apply IH.
Qed.
End MoreResolverFacts.

(** X1. A rate returned by either helper is never made up: it is an
    observation of the fetched data with its own date, it is not missing,
    and every observation fetched after it is missing. This holds for any
    remote source and any order of the data. *)
Theorem returned_rate_is_last_fetched_value :
  ∀ (F : Type) (N : PyNumber F) (fred : Fred F) (series_id : string) (date : Timestamp)
    (v : F) (d : Timestamp),
    ((get_fred_rate fred series_id date).1 = (Some v, Some d) →
     ∃ before after,
       get_series fred series_id (Some (date - 7)) (Some date)
         = Return (before ++ (d, v) :: after)
       ∧ num_isna v = false
       ∧ ∀ o, o ∈ after → num_isna o.2 = true)
    ∧ ((get_current_fred_rate fred series_id).1 = (Some v, Some d) →
       ∃ before after,
         get_series fred series_id None None = Return (before ++ (d, v) :: after)
         ∧ num_isna v = false
         ∧ ∀ o, o ∈ after → num_isna o.2 = true).
Proof.
  intros F N fred series_id date v d. split; intros E.
  - destruct (get_series fred series_id (Some (date - 7)) (Some date)) as [e|data] eqn:Eg.
    + rewrite (get_fred_rate_raised _ _ _ _ Eg) in E. discriminate.
    + rewrite (get_fred_rate_returned _ _ _ _ Eg) in E.
      apply resolved_found in E as (before & after & -> & ? & ?). by exists before, after.
  - destruct (get_series fred series_id None None) as [e|data] eqn:Eg.
    + rewrite (get_current_fred_rate_raised _ _ _ Eg) in E. discriminate.
    + rewrite (get_current_fred_rate_returned _ _ _ Eg) in E.
      apply resolved_found in E as (before & after & -> & ? & ?). by exists before, after.
Qed.

Lemma returned_rate_is_last_fetched_value_witness :
  ∃ before after,
    get_series sample_source "DGS10" (Some (HISTORICAL_DATE - 7)) (Some HISTORICAL_DATE)
      = Return (before ++ (ordinal 2025 4 1, percent 420) :: after)
    ∧ PrimFloat.is_nan (percent 420) = false
    ∧ ∀ o, o ∈ after → PrimFloat.is_nan o.2 = true.
Proof.
  apply (proj1 (returned_rate_is_last_fetched_value float binary64 sample_source "DGS10"
                  HISTORICAL_DATE (percent 420) (ordinal 2025 4 1))).
  reflexivity.
Defined.

(** X2. Either helper returns [None, None] exactly when the remote call
    raised or every fetched observation is missing (none at all included);
    in every other case it returns a rate. *)
Theorem not_found_exactly_when_nothing_usable :
  ∀ (F : Type) (N : PyNumber F) (fred : Fred F) (series_id : string) (date : Timestamp),
    ((get_fred_rate fred series_id date).1 = (None, None)
     ↔ (∃ e, get_series fred series_id (Some (date - 7)) (Some date) = Raise e)
       ∨ (∃ data, get_series fred series_id (Some (date - 7)) (Some date) = Return data
                  ∧ ∀ o, o ∈ data → num_isna o.2 = true))
    ∧ ((get_current_fred_rate fred series_id).1 = (None, None)
       ↔ (∃ e, get_series fred series_id None None = Raise e)
         ∨ (∃ data, get_series fred series_id None None = Return data
                    ∧ ∀ o, o ∈ data → num_isna o.2 = true)).
Proof.
  intros F N fred series_id date. split.
  - destruct (get_series fred series_id (Some (date - 7)) (Some date)) as [e|data] eqn:Eg.
    + rewrite (get_fred_rate_raised _ _ _ _ Eg). split; [intros _; left; by exists e|done].
    + rewrite (get_fred_rate_returned _ _ _ _ Eg). cbn [fst]. rewrite resolved_not_found.
      split.
      * intros Hall. right. by exists data.
      * intros [[e [=]]|(data' & [= <-] & Hall)]. done.
  - destruct (get_series fred series_id None None) as [e|data] eqn:Eg.
    + rewrite (get_current_fred_rate_raised _ _ _ Eg). split; [intros _; left; by exists e|done].
    + rewrite (get_current_fred_rate_returned _ _ _ Eg). cbn [fst]. rewrite resolved_not_found.
      split.
      * intros Hall. right. by exists data.
      * intros [[e [=]]|(data' & [= <-] & Hall)]. done.
Qed.

(** X3. Each call of a helper makes exactly one remote call, for its own
    series, with the range from seven days before the date to the date
    (point-in-time) or without a range (current): it never retries. It
    puts an error message on the page exactly when that remote call
    raised; an empty window is silent. *)
Theorem one_remote_call_and_error_only_when_raised :
  ∀ (F : Type) (N : PyNumber F) (fred : Fred F) (series_id : string) (date : Timestamp),
    (remote_calls (get_fred_rate fred series_id date).2
       = [RemoteCall series_id (Some (date - 7)) (Some date)]
     ∧ ((∃ body, StError body ∈ (get_fred_rate fred series_id date).2)
        ↔ ∃ e, get_series fred series_id (Some (date - 7)) (Some date) = Raise e))
    ∧ (remote_calls (get_current_fred_rate fred series_id).2
         = [RemoteCall series_id None None]
       ∧ ((∃ body, StError body ∈ (get_current_fred_rate fred series_id).2)
          ↔ ∃ e, get_series fred series_id None None = Raise e)).
Proof.
  intros F N fred series_id date. split.
  - destruct (get_series fred series_id (Some (date - 7)) (Some date)) as [e|data] eqn:Eg.
    + rewrite (get_fred_rate_raised _ _ _ _ Eg). split; [reflexivity|].
      split; [intros _; by exists e|]. intros _. eexists. cbn [snd].
      apply list_elem_of_further, list_elem_of_here.
    + rewrite (get_fred_rate_returned _ _ _ _ Eg). split; [reflexivity|].
      split; [|by intros [e [=]]]. intros [body Hin]. cbn [snd] in Hin.
      apply list_elem_of_singleton in Hin. discriminate.
  - destruct (get_series fred series_id None None) as [e|data] eqn:Eg.
    + rewrite (get_current_fred_rate_raised _ _ _ Eg). split; [reflexivity|].
      split; [intros _; by exists e|]. intros _. eexists. cbn [snd].
      apply list_elem_of_further, list_elem_of_here.
    + rewrite (get_current_fred_rate_returned _ _ _ Eg). split; [reflexivity|].
      split; [|by intros [e [=]]]. intros [body Hin]. cbn [snd] in Hin.
      apply list_elem_of_singleton in Hin. discriminate.
Qed.

(** X4. "On or just before a given date": when the remote source keeps to
    the requested range and lists one observation per date in date order,
    and the series has a value on the target date itself, the
    point-in-time helper returns that value with the target date. *)
Theorem value_on_target_date_is_returned :
  ∀ (F : Type) (N : PyNumber F) (fred : Fred F) (series_id : string) (date : Timestamp)
    (data : Series F) (v : F),
    honours_range fred →
    get_series fred series_id (Some (date - 7)) (Some date) = Return data →
    one_per_date data →
    (date, v) ∈ data →
    num_isna v = false →
    (get_fred_rate fred series_id date).1 = (Some v, Some date).
Proof.
  intros F N fred series_id date data v Hrange Eg Hdates Hin Hv.
  rewrite (get_fred_rate_returned _ _ _ _ Eg). cbn [fst].
  destruct (resolved_latest data) as (v' & d' & E & Hin' & Hv' & Hmax).
  { by apply one_per_date_chronological. }
  { by exists (date, v). }
  rewrite E.
  assert (d' = date) as ->.
  { pose proof (Hmax _ Hin Hv) as Hle. cbn in Hle.
    pose proof (Hrange _ _ _ _ Eg _ Hin') as Hr. unfold in_range in Hr. cbn [fst] in Hr.
    apply andb_true_iff in Hr as [_ ?%Z.leb_le]. lia. }
  by rewrite (one_per_date_unique data date v v' Hdates Hin Hin').
Qed.

Lemma value_on_target_date_is_returned_witness :
  (get_fred_rate sample_source "DGS10" HISTORICAL_DATE).1
  = (Some (percent 420), Some HISTORICAL_DATE).
Proof.
  apply (value_on_target_date_is_returned float binary64 sample_source "DGS10"
           HISTORICAL_DATE
           [(ordinal 2025 3 28, percent 427); (ordinal 2025 3 31, PrimFloat.nan);
            (ordinal 2025 4 1, percent 420)] (percent 420)).
  - apply table_client_honours_range.
  - reflexivity.
  - unfold one_per_date. vm_compute.
    repeat (constructor; [|repeat constructor]). constructor.
  - do 2 apply list_elem_of_further. apply list_elem_of_here.
  - reflexivity.
Defined.

(** X5. The two legs fit together: when the full history comes in date
    order and holds every observation of the seven-day window, a rate found
    by the point-in-time helper means that the current helper finds one
    too, dated on or after it. *)
Theorem current_rate_not_older_than_historical :
  ∀ (F : Type) (N : PyNumber F) (fred : Fred F) (series_id : string) (date : Timestamp)
    (window history : Series F) (v : F) (d : Timestamp),
    get_series fred series_id (Some (date - 7)) (Some date) = Return window →
    get_series fred series_id None None = Return history →
    chronological history →
    (∀ o, o ∈ window → o ∈ history) →
    (get_fred_rate fred series_id date).1 = (Some v, Some d) →
    ∃ v' d', (get_current_fred_rate fred series_id).1 = (Some v', Some d') ∧ d ≤ d'.
Proof.
  intros F N fred series_id date window history v d Ew Eh Hsorted Hsub E.
  rewrite (get_fred_rate_returned _ _ _ _ Ew) in E.
  apply resolved_found in E as (before & after & -> & Hv & _).
  assert ((d, v) ∈ history) as Hin.
  { apply Hsub. apply elem_of_app. right. apply list_elem_of_here. }
  rewrite (get_current_fred_rate_returned _ _ _ Eh). cbn [fst].
  destruct (resolved_latest history Hsorted) as (v' & d' & E' & _ & _ & Hmax).
  { by exists (d, v). }
  exists v', d'. split; [done|]. apply (Hmax _ Hin Hv).
Qed.

Lemma current_rate_not_older_than_historical_witness :
  ∃ v' d', (get_current_fred_rate sample_source "DGS10").1 = (Some v', Some d')
           ∧ ordinal 2025 4 1 ≤ d'.
Proof.
  apply (current_rate_not_older_than_historical float binary64 sample_source "DGS10"
           HISTORICAL_DATE
           [(ordinal 2025 3 28, percent 427); (ordinal 2025 3 31, PrimFloat.nan);
            (ordinal 2025 4 1, percent 420)]
           [(ordinal 2025 3 28, percent 427); (ordinal 2025 3 31, PrimFloat.nan);
            (ordinal 2025 4 1, percent 420); (ordinal 2025 7 31, percent 450)]
           (percent 420)).
  - reflexivity.
  - reflexivity.
  - unfold chronological. vm_compute.
    repeat (constructor; [|repeat constructor; discriminate]). constructor.
  - intros o Ho.
    change ([(ordinal 2025 3 28, percent 427 : float); (ordinal 2025 3 31, PrimFloat.nan);
             (ordinal 2025 4 1, percent 420); (ordinal 2025 7 31, percent 450)])
      with ([(ordinal 2025 3 28, percent 427 : float); (ordinal 2025 3 31, PrimFloat.nan);
             (ordinal 2025 4 1, percent 420)] ++ [(ordinal 2025 7 31, percent 450)]).
    apply elem_of_app. by left.
  - reflexivity.
Defined.

(* ================================================================== *)
(** * Further properties of the cache *)
(* ================================================================== *)

Lemma cache_data_keeps_fresh_entry {U K R : Type} `{Countable K}
    ttl (f : U → K → Eff R) now u key' (cache : gmap K (cache_entry R)) key entry :
  cache !! key = Some entry → now < stored_at entry + ttl →
  (cache_data ttl f now u key' cache).2 !! key = Some entry.
Proof.
  intros El Hfresh. unfold cache_data. destruct (f u key') as [r log].
  destruct (decide (key' = key)) as [->|Hne].
  - rewrite El. by rewrite (proj2 (Z.ltb_lt _ _) Hfresh).
  - destruct (cache !! key') as [entry'|]; [destruct (now <? stored_at entry' + ttl)|];
      cbn [snd]; by rewrite ?lookup_insert_ne.
Qed.

Lemma cache_after_calls_keeps_fresh_entry {U K R : Type} `{Countable K}
    ttl (f : U → K → Eff R) (calls : list (Z * U * K))
    (cache : gmap K (cache_entry R)) key entry :
  cache !! key = Some entry →
  Forall (λ c, c.1.1 < stored_at entry + ttl) calls →
  cache_after_calls ttl f calls cache !! key = Some entry.
Proof.
  revert cache. induction calls as [|[[now u] key'] rest IH]; intros cache El Hcalls; [done|].
  apply Forall_cons in Hcalls as [Hnow Hrest]. cbn [cache_after_calls].
  apply IH; [|done]. by apply cache_data_keeps_fresh_entry.
Qed.

Lemma cache_data_hit {U K R : Type} `{Countable K}
    ttl (f : U → K → Eff R) now u key (cache : gmap K (cache_entry R)) entry :
  cache !! key = Some entry → now < stored_at entry + ttl →
  cache_data ttl f now u key cache = ((cached_value entry, cached_elements entry), cache).
Proof.
  intros El Hfresh. unfold cache_data. destruct (f u key) as [r log].
  by rewrite El, (proj2 (Z.ltb_lt _ _) Hfresh).
Qed.

Lemma cache_data_miss {U K R : Type} `{Countable K}
    ttl (f : U → K → Eff R) now u key (cache : gmap K (cache_entry R)) :
  cache !! key = None →
  cache_data ttl f now u key cache
  = (f u key,
     <[key := mkEntry (f u key).1 (filter (λ e, is_remote_call e = false) (f u key).2) now]>
       cache).
Proof. intros El. unfold cache_data. destruct (f u key) as [r log]. by rewrite El. Qed.

(** X6. Once stored, an entry answers every call for its key until [ttl]
    seconds after it was stored: whatever other calls are made meanwhile,
    for this key or others and with whatever unhashed argument, the call
    returns the stored value with the stored page elements, the function
    is not run and the cache is left as it is. *)
Theorem entry_answers_for_its_lifetime :
  ∀ (U K R : Type) (E : EqDecision K) (C : Countable K) (ttl : Z) (f : U → K → Eff R)
    (calls : list (Z * U * K)) (cache : gmap K (cache_entry R)) (key : K)
    (entry : cache_entry R) (now : Z) (u : U),
    cache !! key = Some entry →
    Forall (λ c, c.1.1 < stored_at entry + ttl) calls →
    now < stored_at entry + ttl →
    cache_data ttl f now u key (cache_after_calls ttl f calls cache)
    = ((cached_value entry, cached_elements entry), cache_after_calls ttl f calls cache).
Proof.
  intros U K R E C ttl f calls cache key entry now u El Hcalls Hnow.
  apply cache_data_hit; [|done]. by apply cache_after_calls_keeps_fresh_entry.
Qed.

Lemma entry_answers_for_its_lifetime_witness :
  (cache_data 3600 (λ (c : Fred float) k, get_fred_rate c k.1 k.2) 3599 failing_source
     ("DGS10", HISTORICAL_DATE)
     (cache_after_calls 3600 (λ (c : Fred float) k, get_fred_rate c k.1 k.2)
        [(100, failing_source, ("DGS5", HISTORICAL_DATE));
         (200, failing_source, ("DGS10", HISTORICAL_DATE))]
        (cached_get_fred_rate 0 sample_source "DGS10" HISTORICAL_DATE ∅).2)).1
  = ((Some (percent 420), Some HISTORICAL_DATE), []).
Proof.
  rewrite (entry_answers_for_its_lifetime (Fred float) (string * Z) _ _ _ 3600
             (λ (c : Fred float) k, get_fred_rate c k.1 k.2)
             [(100, failing_source, ("DGS5", HISTORICAL_DATE));
              (200, failing_source, ("DGS10", HISTORICAL_DATE))]
             (cached_get_fred_rate 0 sample_source "DGS10" HISTORICAL_DATE ∅).2
             ("DGS10", HISTORICAL_DATE)
             (mkEntry (Some (percent 420), Some HISTORICAL_DATE) [] 0)
             3599 failing_source).
  - reflexivity.
  - reflexivity.
  - repeat constructor.
  - reflexivity.
Defined.

(** X7. A failure is remembered like a value. When nothing is stored for
    the series and date and the remote call raises at time [t], every call
    before [t + 3600] (the point-in-time helper) or [t + 900] (the current
    one) returns [None, None] and shows the stored error message again,
    without a remote call, whatever source it is made with. *)
Theorem remote_failure_is_remembered :
  ∀ (F : Type) (N : PyNumber F) (down later : Fred F) (series_id : string)
    (date : Timestamp) (e : string) (t t' : Z),
    (∀ cache,
       cache !! (series_id, date) = None →
       get_series down series_id (Some (date - 7)) (Some date) = Raise e →
       t' < t + 3600 →
       (cached_get_fred_rate t' later series_id date
          (cached_get_fred_rate t down series_id date cache).2).1
       = ((None, None),
          [StError ("Error fetching historical FRED data for " +:+ series_id
                    +:+ ": " +:+ e)]))
    ∧ (∀ cache,
         cache !! series_id = None →
         get_series down series_id None None = Raise e →
         t' < t + 900 →
         (cached_get_current_fred_rate t' later series_id
            (cached_get_current_fred_rate t down series_id cache).2).1
         = ((None, None),
            [StError ("Error fetching current FRED data for " +:+ series_id
                      +:+ ": " +:+ e)])).
Proof.
  intros F N down later series_id date e t t'. split.
  - intros cache El Eg Ht. unfold cached_get_fred_rate.
    rewrite (cache_data_miss 3600 _ t down (series_id, date) cache El). cbn [fst snd].
    rewrite (get_fred_rate_raised _ _ _ _ Eg). cbn [fst snd].
    erewrite cache_data_hit; cycle 1; [apply lookup_insert_eq | exact Ht | reflexivity].
  - intros cache El Eg Ht. unfold cached_get_current_fred_rate.
    rewrite (cache_data_miss 900 _ t down series_id cache El).
    rewrite (get_current_fred_rate_raised _ _ _ Eg). cbn [fst snd].
    erewrite cache_data_hit; cycle 1; [apply lookup_insert_eq | exact Ht | reflexivity].
Qed.

Lemma remote_failure_is_remembered_witness :
  (cached_get_fred_rate 3599 sample_source "DGS10" HISTORICAL_DATE
     (cached_get_fred_rate 0 failing_source "DGS10" HISTORICAL_DATE ∅).2).1
  = ((None, None),
     [StError "Error fetching historical FRED data for DGS10: Internal Server Error"]).
Proof.
  apply (proj1 (remote_failure_is_remembered float binary64 failing_source sample_source
                  "DGS10" HISTORICAL_DATE "Internal Server Error" 0 3599)).
  - reflexivity.
  - reflexivity.
  - reflexivity.
Defined.

(* ================================================================== *)
(** * Further properties of the page *)
(* ================================================================== *)

Lemma catalogue_position (i : nat) :
  (i < length (keys FRED_SERIES))%nat →
  ∃ name series_id,
    keys FRED_SERIES !! i = Some name
    ∧ getitem FRED_SERIES name = Some series_id
    ∧ values FRED_SERIES !! i = Some series_id.
Proof.
  intros Hi. do 5 (destruct i as [|i]; [by eexists _, _|]). cbn in Hi. lia.
Qed.

Section MorePageFacts.
Context {F : Type} `{PyNumber F}.
Implicit Types (fred : Fred F) (s : AppState F).

(** A run of the script, told by what the two cached helpers return. *)
Lemma script_outcome fred now s :
  page_invariant s →
  ∃ name series_id tail,
    keys FRED_SERIES !! maturity_index s = Some name
    ∧ values FRED_SERIES !! maturity_index s = Some series_id
    ∧ remote_calls tail = []
    ∧ let h := cached_get_fred_rate now fred series_id HISTORICAL_DATE (historical_cache s) in
      let c := cached_get_current_fred_rate now fred series_id (current_cache s) in
      script fred now s
      = (Return (cost_of_rates h.1.1 c.1.1 (debt_amount_billions s)),
         mkState (maturity_index s) (debt_amount_billions s) h.2 c.2,
         h.1.2
         ++ match h.1.1 with
            | (Some rate, Some d) =>
                [metric_plain (name +:+ " Yield (as of " +:+ strftime_ymd d +:+ ")")
                              (format_f false 2 rate +:+ "%")]
            | _ => [StError ("Could not retrieve rate for " +:+ HISTORICAL_DATE_STR +:+ ".")]
            end
         ++ c.1.2
         ++ match c.1.1 with
            | (Some rate, Some d) =>
                [metric_plain (name +:+ " Yield (as of " +:+ strftime_ymd d +:+ ")")
                              (format_f false 2 rate +:+ "%")]
            | _ => [StError "Could not retrieve the current rate."]
            end
         ++ tail)
      ∧ (cost_of_rates h.1.1 c.1.1 (debt_amount_billions s) = None →
         tail = [StInfo "Cannot calculate difference without both rates.";
                 StWarning "Interest cost cannot be calculated because one or both rates are missing."]).
Proof.
  intros (Hi & Hh & Hc).
  destruct (catalogue_position _ Hi) as (name & series_id & Hname & Hid & Hval).
  pose proof (cache_data_coherent 3600 (λ c k, get_fred_rate c k.1 k.2) now fred
                (series_id, HISTORICAL_DATE) _
                (λ k, get_fred_rate_coherent fred k.1 k.2) Hh) as [Hr1 _].
  pose proof (cache_data_coherent 900 get_current_fred_rate now fred series_id _
                (get_current_fred_rate_coherent fred) Hc) as [Hr2 _].
  fold (cached_get_fred_rate now fred series_id HISTORICAL_DATE (historical_cache s)) in Hr1.
  fold (cached_get_current_fred_rate now fred series_id (current_cache s)) in Hr2.
  exists name, series_id.
  unfold script, selectbox_options. rewrite Hname, Hid. cbv zeta.
  destruct (cached_get_fred_rate now fred series_id HISTORICAL_DATE (historical_cache s))
    as [[r1 log1] hcache].
  destruct (cached_get_current_fred_rate now fred series_id (current_cache s))
    as [[r2 log2] ccache].
  cbn [fst snd] in *.
  destruct Hr1 as [(h & dh & ->) | ->], Hr2 as [(c & dc & ->) | ->]; cbn [fst snd];
    eexists; (split; [done|]); (split; [done|]);
    (split; [|split; [reflexivity|]]); first [reflexivity | done | idtac].
  all: by intros _.
Qed.
End MorePageFacts.

Lemma remote_calls_app (l1 l2 : list event) :
  remote_calls (l1 ++ l2) = remote_calls l1 ++ remote_calls l2.
Proof. apply filter_app. Qed.

Lemma remote_calls_none (l : list event) :
  Forall (λ e, is_remote_call e = false) l → remote_calls l = [].
Proof.
  intros Hl. apply elem_of_nil_inv. intros e [He Hin]%list_elem_of_filter.
  rewrite Forall_forall in Hl. rewrite (Hl _ Hin) in He. discriminate.
Qed.

Lemma cached_remote_calls {U K R : Type} `{Countable K}
    ttl (f : U → K → Eff R) now u key (cache : gmap K (cache_entry R)) :
  cache_clean cache →
  remote_calls (cache_data ttl f now u key cache).1.2 = []
  ∨ remote_calls (cache_data ttl f now u key cache).1.2 = remote_calls (f u key).2.
Proof.
  intros Hc. destruct (cache_data_cases ttl f u now key cache) as [(entry & El & ->) | ->].
  - left. apply remote_calls_none. by apply (Hc key).
  - right. by destruct (f u key).
Qed.

Section PageRuns.
Context {F : Type} `{PyNumber F}.
Implicit Types (fred : Fred F) (s : AppState F).

Lemma get_fred_rate_remote_calls fred series_id d :
  remote_calls (get_fred_rate fred series_id d).2
  = [RemoteCall series_id (Some (d - 7)) (Some d)].
Proof.
  destruct (get_series fred series_id (Some (d - 7)) (Some d)) as [e|data] eqn:E.
  - by rewrite (get_fred_rate_raised _ _ _ _ E).
  - by rewrite (get_fred_rate_returned _ _ _ _ E).
Qed.

Lemma get_current_fred_rate_remote_calls fred series_id :
  remote_calls (get_current_fred_rate fred series_id).2 = [RemoteCall series_id None None].
Proof.
  destruct (get_series fred series_id None None) as [e|data] eqn:E.
  - by rewrite (get_current_fred_rate_raised _ _ _ E).
  - by rewrite (get_current_fred_rate_returned _ _ _ E).
Qed.

Lemma reachable_state (earlier : Z → Fred F) todo :
  page_invariant (session earlier todo initial_state).1
  ∧ caches_clean (session earlier todo initial_state).1.
Proof.
  split.
  - apply session_keeps_invariant, initial_state_invariant.
  - apply session_sound, initial_state_clean.
Qed.
End PageRuns.

(** X8. A run of the script makes at most two remote calls, both for the
    series of the selected maturity: the windowed call for the seven days
    up to the reference date first, the call for the full history second;
    a leg answered from the cache makes none. This holds at any point of
    any session and for any remote source. *)
Theorem run_makes_at_most_two_remote_calls :
  ∀ (F : Type) (N : PyNumber F) (earlier : Z → Fred F) (todo : list (Z * action F))
    (fred : Fred F) (now : Z),
    let s := (session earlier todo initial_state).1 in
    ∃ series_id,
      values FRED_SERIES !! maturity_index s = Some series_id
      ∧ remote_calls (script fred now s).2
        `sublist_of` [RemoteCall series_id (Some (HISTORICAL_DATE - 7)) (Some HISTORICAL_DATE);
                      RemoteCall series_id None None].
Proof.
  intros F N earlier todo fred now s.
  destruct (reachable_state earlier todo) as [Hinv [Hh Hc]]. fold s in Hinv, Hh, Hc.
  destruct (script_outcome fred now s Hinv) as (name & series_id & tail & _ & Hval & Htail & E & _).
  exists series_id. split; [done|]. rewrite E. cbn [snd].
  rewrite !remote_calls_app, Htail, app_nil_r.
  pose proof (cached_remote_calls 3600 (λ c k, get_fred_rate c k.1 k.2) now fred
                (series_id, HISTORICAL_DATE) _ Hh) as Hlog1.
  pose proof (cached_remote_calls 900 get_current_fred_rate now fred series_id _ Hc) as Hlog2.
  cbn [fst snd] in Hlog1. rewrite get_fred_rate_remote_calls in Hlog1.
  rewrite get_current_fred_rate_remote_calls in Hlog2.
  fold (cached_get_fred_rate now fred series_id HISTORICAL_DATE (historical_cache s)) in Hlog1.
  fold (cached_get_current_fred_rate now fred series_id (current_cache s)) in Hlog2.
  destruct (cached_get_fred_rate now fred series_id HISTORICAL_DATE (historical_cache s))
    as [[[hr hd] log1] hcache].
  destruct (cached_get_current_fred_rate now fred series_id (current_cache s))
    as [[[cr cd] log2] ccache].
  cbn [fst snd] in *.
  assert (remote_calls (match hr with
                        | Some rate =>
                            match hd with
                            | Some d =>
                                [metric_plain (name +:+ " Yield (as of " +:+ strftime_ymd d +:+ ")")
                                              (format_f false 2 rate +:+ "%")]
                            | None =>
                                [StError ("Could not retrieve rate for " +:+ HISTORICAL_DATE_STR +:+ ".")]
                            end
                        | None =>
                            [StError ("Could not retrieve rate for " +:+ HISTORICAL_DATE_STR +:+ ".")]
                        end) = []) as -> by by destruct hr, hd.
  assert (remote_calls (match cr with
                        | Some rate =>
                            match cd with
                            | Some d =>
                                [metric_plain (name +:+ " Yield (as of " +:+ strftime_ymd d +:+ ")")
                                              (format_f false 2 rate +:+ "%")]
                            | None => [StError "Could not retrieve the current rate."]
                            end
                        | None => [StError "Could not retrieve the current rate."]
                        end) = []) as -> by by destruct cr, cd.
  rewrite app_nil_r. cbn [app].
  destruct Hlog1 as [-> | ->], Hlog2 as [-> | ->]; cbn [app]; repeat constructor.
Qed.

(** X9. A run of the script never fails, and it ends with a cost result
    exactly when both helpers returned a rate: the result is then computed
    from these two rates and the amount of the number input times
    1,000,000,000. When either rate is missing there is no result, and the
    page says so: "Cannot calculate difference without both rates." and
    "Interest cost cannot be calculated because one or both rates are
    missing." This holds at any point of any session. *)
Theorem cost_is_computed_exactly_when_both_rates_are_there :
  ∀ (F : Type) (N : PyNumber F) (earlier : Z → Fred F) (todo : list (Z * action F))
    (fred : Fred F) (now : Z),
    let s := (session earlier todo initial_state).1 in
    ∃ series_id,
      values FRED_SERIES !! maturity_index s = Some series_id
      ∧ let h := (cached_get_fred_rate now fred series_id HISTORICAL_DATE
                    (historical_cache s)).1.1 in
        let c := (cached_get_current_fred_rate now fred series_id (current_cache s)).1.1 in
        (script fred now s).1.1 = Return (cost_of_rates h c (debt_amount_billions s))
        ∧ (h = (None, None) ∨ c = (None, None) →
           (script fred now s).1.1 = Return None
           ∧ StInfo "Cannot calculate difference without both rates." ∈ (script fred now s).2
           ∧ StWarning "Interest cost cannot be calculated because one or both rates are missing."
               ∈ (script fred now s).2).
Proof.
  intros F N earlier todo fred now s.
  destruct (reachable_state earlier todo) as [Hinv _]. fold s in Hinv.
  destruct (script_outcome fred now s Hinv)
    as (name & series_id & tail & _ & Hval & _ & E & Htail).
  exists series_id. split; [done|]. cbv zeta in *. rewrite E. cbn [fst snd].
  split; [done|]. intros Hmissing.
  assert (cost_of_rates
            (cached_get_fred_rate now fred series_id HISTORICAL_DATE (historical_cache s)).1.1
            (cached_get_current_fred_rate now fred series_id (current_cache s)).1.1
            (debt_amount_billions s) = None) as Hnone.
  { unfold cost_of_rates. destruct Hmissing as [-> | ->]; [done|].
    by destruct ((cached_get_fred_rate now fred series_id HISTORICAL_DATE
                    (historical_cache s)).1.1).1. }
  rewrite Hnone. split; [done|]. rewrite (Htail Hnone).
  rewrite !elem_of_app. split; do 4 right.
  - apply list_elem_of_here.
  - apply list_elem_of_further, list_elem_of_here.
Qed.

(** X10. Each leg is reported on its own: whatever the other helper
    returned, a rate is shown with the date of its observation in the label
    and two decimals, and a missing rate is shown as "Could not retrieve
    rate for 2025-04-01." (historical) or "Could not retrieve the current
    rate." (current). A failure of one leg never hides the other. *)
Theorem each_leg_is_reported_on_its_own :
  ∀ (F : Type) (N : PyNumber F) (earlier : Z → Fred F) (todo : list (Z * action F))
    (fred : Fred F) (now : Z),
    let s := (session earlier todo initial_state).1 in
    ∃ name series_id,
      keys FRED_SERIES !! maturity_index s = Some name
      ∧ values FRED_SERIES !! maturity_index s = Some series_id
      ∧ let h := (cached_get_fred_rate now fred series_id HISTORICAL_DATE
                    (historical_cache s)).1.1 in
        let c := (cached_get_current_fred_rate now fred series_id (current_cache s)).1.1 in
        let log := (script fred now s).2 in
        (h = (None, None) → StError "Could not retrieve rate for 2025-04-01." ∈ log)
        ∧ (∀ rate d, h = (Some rate, Some d) →
             metric_plain (name +:+ " Yield (as of " +:+ strftime_ymd d +:+ ")")
                          (format_f false 2 rate +:+ "%") ∈ log)
        ∧ (c = (None, None) → StError "Could not retrieve the current rate." ∈ log)
        ∧ (∀ rate d, c = (Some rate, Some d) →
             metric_plain (name +:+ " Yield (as of " +:+ strftime_ymd d +:+ ")")
                          (format_f false 2 rate +:+ "%") ∈ log).
Proof.
  intros F N earlier todo fred now s.
  destruct (reachable_state earlier todo) as [Hinv _]. fold s in Hinv.
  destruct (script_outcome fred now s Hinv)
    as (name & series_id & tail & Hname & Hval & _ & E & _).
  exists name, series_id. split; [done|]. split; [done|]. cbv zeta in *. rewrite E.
  cbn [snd]. repeat split.
  - intros ->. rewrite !elem_of_app. right. left. apply list_elem_of_here.
  - intros rate d ->. rewrite !elem_of_app. right. left. apply list_elem_of_here.
  - intros ->. rewrite !elem_of_app. do 3 right. left. apply list_elem_of_here.
  - intros rate d ->. rewrite !elem_of_app. do 3 right. left. apply list_elem_of_here.
Qed.

Section UnchangedSource.
Context {F : Type} `{PyNumber F}.
Implicit Types (fred : Fred F) (s : AppState F).

Lemma accept_keeps_caches a s :
  historical_cache (accept a s) = historical_cache s
  ∧ current_cache (accept a s) = current_cache s.
Proof. by destruct a. Qed.

Lemma session_caches_agree fred todo s :
  page_invariant s →
  cache_agrees (λ c k, get_fred_rate c k.1 k.2) fred (historical_cache s) →
  cache_agrees get_current_fred_rate fred (current_cache s) →
  page_invariant (session (λ _, fred) todo s).1
  ∧ cache_agrees (λ c k, get_fred_rate c k.1 k.2) fred
      (historical_cache (session (λ _, fred) todo s).1)
  ∧ cache_agrees get_current_fred_rate fred (current_cache (session (λ _, fred) todo s).1).
Proof.
  revert s. induction todo as [|[now a] rest IH]; intros s Hs Hh Hc; [done|].
  cbn [session].
  assert (page_invariant (step fred now a s).1
          ∧ cache_agrees (λ c k, get_fred_rate c k.1 k.2) fred
              (historical_cache (step fred now a s).1)
          ∧ cache_agrees get_current_fred_rate fred (current_cache (step fred now a s).1))
    as (Hs' & Hh' & Hc').
  { unfold step.
    pose proof (accept_keeps_invariant a s Hs) as Hinv.
    destruct (accept_keeps_caches a s) as [Eh Ec].
    revert Hinv Eh Ec. generalize (accept a s). intros s' Hinv Eh Ec.
    pose proof (script_returns fred now s' Hinv) as [_ Hinv'].
    destruct (script_outcome fred now s' Hinv) as (name & series_id & tail & _ & _ & _ & E & _).
    cbv zeta in E. rewrite E in Hinv' |- *. cbn [fst snd historical_cache current_cache] in *.
    split; [done|]. rewrite Eh, Ec. split.
    - by apply (cache_data_agrees 3600 (λ c k, get_fred_rate c k.1 k.2)).
    - by apply (cache_data_agrees 900 get_current_fred_rate). }
  destruct (step fred now a s) as [s' log]. cbn [fst] in *.
  specialize (IH s' Hs' Hh' Hc'). by destruct (session (λ _, fred) rest s') as [s'' log'].
Qed.
End UnchangedSource.

(** X11. Against a remote source that does not change, the page never
    shows anything stale: at any point of any session a run of the script
    ends with the result computed from what the two helpers would return
    without a cache, for the series of the selected maturity and the
    amount of the number input. *)
Theorem unchanged_source_gives_fresh_result :
  ∀ (F : Type) (N : PyNumber F) (fred : Fred F) (todo : list (Z * action F)) (now : Z),
    let s := (session (λ _, fred) todo initial_state).1 in
    ∃ series_id,
      values FRED_SERIES !! maturity_index s = Some series_id
      ∧ (script fred now s).1.1
        = Return (cost_of_rates (get_fred_rate fred series_id HISTORICAL_DATE).1
                                (get_current_fred_rate fred series_id).1
                                (debt_amount_billions s)).
Proof.
  intros F N fred todo now s.
  destruct (session_caches_agree fred todo initial_state) as (Hinv & Hh & Hc).
  { apply initial_state_invariant. }
  { apply cache_agrees_empty. }
  { apply cache_agrees_empty. }
  fold s in Hinv, Hh, Hc.
  destruct (script_outcome fred now s Hinv) as (name & series_id & tail & _ & Hval & _ & E & _).
  exists series_id. split; [done|]. cbv zeta in E. rewrite E. cbn [fst].
  unfold cached_get_fred_rate, cached_get_current_fred_rate.
  rewrite (cache_data_value 3600 (λ c k, get_fred_rate c k.1 k.2) fred now
             (series_id, HISTORICAL_DATE) _ Hh).
  by rewrite (cache_data_value 900 get_current_fred_rate fred now series_id _ Hc).
Qed.

Lemma sign_rule_on_doubles_witness :
  sign_agrees scenario_principal 420 450 = true.
Proof. apply sign_rule_on_doubles; lia. Defined.

(* ================================================================== *)
(** * Further properties of the cost calculation *)
(* ================================================================== *)

Lemma additional_cost_exact (h c p : Q) :
  (additional_cost (compute_cost h c p) == p * (c - h) / 100)%Q.
Proof. unfold compute_cost. cbn. field. Qed.

Lemma delta_color_exact (a : Q) : delta_color a = "inverse" ↔ (a < 0)%Q.
Proof.
  unfold delta_color. change (num_ltb a (num_of_Z 0)) with (negb (Qle_bool 0 a)).
  destruct (Qle_bool 0 a) eqn:E; cbn [negb].
  - apply Qle_bool_iff in E. split; [done|]. intros Ha. lra.
  - split; [intros _|done]. apply Qnot_le_lt. intros Hle.
    apply Qle_bool_iff in Hle. congruence.
Qed.

(** X12. The colour of the delta follows the direction of the rates: in
    exact arithmetic, at any point of any session, the additional cost
    computed from the amount on the page is marked "inverse" exactly when
    the current rate is below the historical rate, and "normal"
    otherwise. *)
Theorem delta_color_follows_the_rates :
  ∀ (fred : Z → Fred Q) (todo : list (Z * action Q)) (historical_rate current_rate : Q),
    let s := (session fred todo initial_state).1 in
    let debt_amount := (debt_amount_billions s * inject_Z 1000000000)%Q in
    let a := additional_cost (compute_cost historical_rate current_rate debt_amount) in
    (delta_color a = "inverse" ↔ (current_rate < historical_rate)%Q)
    ∧ (delta_color a = "normal" ↔ (historical_rate <= current_rate)%Q).
Proof.
  intros fred todo h c s debt_amount a.
  assert (1 <= debt_amount_billions s)%Q as Hone.
  { apply session_amount_exact. change (1 <= inject_Z 100)%Q. unfold Qle. cbn. lia. }
  assert (0 < debt_amount / 100)%Q as Hq.
  { apply Qlt_shift_div_l; [lra|]. rewrite Qmult_0_l. unfold debt_amount.
    apply Qmult_lt_0_compat; [lra|reflexivity]. }
  assert (a == debt_amount / 100 * (c - h))%Q as Ha.
  { unfold a. rewrite additional_cost_exact. field. }
  assert (a < 0 ↔ c < h)%Q as Hsign.
  { rewrite Ha. revert Hq. generalize (debt_amount / 100)%Q. intros q Hq. split; intros; nra. }
  split; [by rewrite delta_color_exact|].
  unfold delta_color. change (num_ltb a (num_of_Z 0)) with (negb (Qle_bool 0 a)).
  destruct (Qle_bool 0 a) eqn:E; cbn [negb].
  - split; [intros _|done]. apply Qnot_lt_le. intros Hlt. apply Hsign in Hlt.
    apply Qle_bool_iff in E. lra.
  - split; [done|]. intros Hle. exfalso.
    assert (a < 0)%Q as Hneg.
    { apply Qnot_le_lt. intros Hx. apply Qle_bool_iff in Hx. congruence. }
    apply Hsign in Hneg. lra.
Qed.

(** X13. In exact arithmetic the additional cost is the principal times
    the change in yield over 100, so that it is proportional to the
    principal, changes sign when the two rates are exchanged, and adds up
    along a chain of rates. *)
Theorem additional_cost_is_principal_times_change_in_yield :
  ∀ historical_rate current_rate later_rate principal factor : Q,
    (additional_cost (compute_cost historical_rate current_rate principal)
       == principal * (current_rate - historical_rate) / 100
     ∧ additional_cost (compute_cost historical_rate current_rate (factor * principal))
       == factor * additional_cost (compute_cost historical_rate current_rate principal)
     ∧ additional_cost (compute_cost current_rate historical_rate principal)
       == - additional_cost (compute_cost historical_rate current_rate principal)
     ∧ additional_cost (compute_cost historical_rate current_rate principal)
       + additional_cost (compute_cost current_rate later_rate principal)
       == additional_cost (compute_cost historical_rate later_rate principal))%Q.
Proof.
  intros h c l p k. rewrite !additional_cost_exact. repeat split; field.
Qed.

Lemma forall_range_spec count low check z :
  forall_range count low check = true →
  low ≤ z < low + Z.of_nat count → check z = true.
Proof.
  revert low. induction count as [|count IH]; intros low Hall Hz; [lia|].
  cbn [forall_range] in Hall. apply andb_true_iff in Hall as [Hlow Hrest].
  destruct (decide (z = low)) as [->|Hne]; [done|].
  apply (IH (low + 1)); [done|lia].
Qed.

(** X15. Rounding on doubles does not reach the page: for the default
    principal of 100 billion and every rate with two decimals from 0.00%
    to 20.00%, the annual interest cost is shown, with thousands separators
    and two decimals, as the same text that exact arithmetic gives. *)
Theorem shown_annual_cost_is_exact :
  ∀ hundredths : Z,
    0 ≤ hundredths ≤ 2000 →
    format_f true 2 (annual_cost 100 hundredths : float)
    = format_f true 2 (annual_cost 100 hundredths : Q).
Proof.
  assert (Hall : forall_range 2001 0 (shown_cost_is_exact 100) = true)
    by (vm_compute; reflexivity).
  intros n Hn. apply String.eqb_eq.
  apply (forall_range_spec 2001 0 (shown_cost_is_exact 100) n Hall). lia.
Qed.

Lemma shown_annual_cost_is_exact_witness :
  format_f true 2 (annual_cost 100 420 : float) = "4,200,000,000.00"
  ∧ format_f true 2 (annual_cost 100 420 : Q) = "4,200,000,000.00".
Proof.
  split; [|reflexivity].
  rewrite (shown_annual_cost_is_exact 420); [reflexivity|lia].
Defined.

(* ================================================================== *)
(** * Where cached values come from *)
(* ================================================================== *)

Section Provenance.
Context {U K R : Type} `{Countable K}.
Variables (ttl : Z) (f : U → K → Eff R).
Implicit Types (cache : gmap K (cache_entry R)) (calls : list (Z * U * K)).

Lemma cache_data_provenance calls now u key cache :
  entries_satisfy (stored_by f calls) cache →
  entries_satisfy (stored_by f (calls ++ [(now, u, key)])) (cache_data ttl f now u key cache).2.
Proof.
  intros Hc k e.
  destruct (cache_data_cases ttl f u now key cache) as [(entry & El & ->) | ->]; cbn [snd].
  - intros Hk. destruct (Hc k e Hk) as (u' & Hin & Hv).
    exists u'. split; [|done]. apply elem_of_app. by left.
  - rewrite lookup_insert. case_decide as Hk.
    + subst k. intros [= <-]. exists u. cbn. split; [|done].
      apply elem_of_app. right. apply list_elem_of_here.
    + intros Hl. destruct (Hc k e Hl) as (u' & Hin & Hv).
      exists u'. split; [|done]. apply elem_of_app. by left.
Qed.

Lemma cache_after_calls_provenance calls before cache :
  entries_satisfy (stored_by f before) cache →
  entries_satisfy (stored_by f (before ++ calls)) (cache_after_calls ttl f calls cache).
Proof.
  revert before cache. induction calls as [|[[now u] key] rest IH]; intros before cache Hc.
  - by rewrite app_nil_r.
  - cbn [cache_after_calls].
    replace (before ++ (now, u, key) :: rest) with ((before ++ [(now, u, key)]) ++ rest)
      by by rewrite <- app_assoc.
    apply IH. by apply cache_data_provenance.
Qed.

Lemma cache_data_hit_or_miss now u key cache :
  (∃ entry, cache !! key = Some entry ∧ now < stored_at entry + ttl
            ∧ (cache_data ttl f now u key cache).1.1 = cached_value entry)
  ∨ (cache_data ttl f now u key cache).1.1 = (f u key).1.
Proof.
  unfold cache_data. destruct (f u key) as [r log].
  destruct (cache !! key) as [entry|]; [|by right].
  destruct (now <? stored_at entry + ttl) eqn:E; [|by right].
  left. exists entry. apply Z.ltb_lt in E. by repeat split.
Qed.

Lemma cached_result_provenance calls now u key :
  (cache_data ttl f now u key (cache_after_calls ttl f calls ∅)).1.1 = (f u key).1
  ∨ ∃ t u', (t, u', key) ∈ calls ∧ now < t + ttl
            ∧ (cache_data ttl f now u key (cache_after_calls ttl f calls ∅)).1.1
              = (f u' key).1.
Proof.
  destruct (cache_data_hit_or_miss now u key (cache_after_calls ttl f calls ∅))
    as [(entry & El & Hfresh & ->) | ->]; [|by left].
  right.
  assert (entries_satisfy (stored_by f ([] ++ calls)) (cache_after_calls ttl f calls ∅)) as Hall.
  { apply cache_after_calls_provenance. intros k e Hk. by rewrite lookup_empty in Hk. }
  destruct (Hall key entry El) as (u' & Hin & Hv).
  exists (stored_at entry), u'. by repeat split.
Qed.
End Provenance.

(** X16. What the cached helpers return is never older than their
    lifetime and never from another query. After any earlier calls, a call
    of the cached point-in-time helper returns what [get_fred_rate] returns
    for the same series and date, either now with the source at hand or at
    an earlier call for this very series and date made less than 3600
    seconds before; likewise the cached current helper, for the same series
    and 900 seconds. *)
Theorem cached_result_is_recent_and_for_the_same_query :
  ∀ (F : Type) (N : PyNumber F),
    (∀ (calls : list (Z * Fred F * (string * Timestamp))) (now : Z) (fred : Fred F)
       (series_id : string) (date : Timestamp),
       let r := (cached_get_fred_rate now fred series_id date
                   (cache_after_calls 3600 (λ c k, get_fred_rate c k.1 k.2) calls ∅)).1.1 in
       r = (get_fred_rate fred series_id date).1
       ∨ ∃ t earlier, (t, earlier, (series_id, date)) ∈ calls ∧ now < t + 3600
                      ∧ r = (get_fred_rate earlier series_id date).1)
    ∧ (∀ (calls : list (Z * Fred F * string)) (now : Z) (fred : Fred F) (series_id : string),
         let r := (cached_get_current_fred_rate now fred series_id
                     (cache_after_calls 900 get_current_fred_rate calls ∅)).1.1 in
         r = (get_current_fred_rate fred series_id).1
         ∨ ∃ t earlier, (t, earlier, series_id) ∈ calls ∧ now < t + 900
                        ∧ r = (get_current_fred_rate earlier series_id).1).
Proof.
  intros F N. split.
  - intros calls now fred series_id date.
    apply (cached_result_provenance 3600 (λ c k, get_fred_rate c k.1 k.2)
             calls now fred (series_id, date)).
  - intros calls now fred series_id.
    apply (cached_result_provenance 900 get_current_fred_rate calls now fred series_id).
Qed.
